(** * Regression graph generator: equation parsing, curve sampling and
      cost-metric derivation of [app.py]

    The development embeds the computational core of [app.py]:
    - the two equation parsers ([parse_log_equation],
      [parse_linear_equation]) with Python's [re.search] and [float];
    - the chart builders [generate_graph] and [generate_ncpa_graph] with
      [find_ncpa_minimum_log];
    - the handler of the generate button, with its column check and its
      top-level exception handler.

    Conventions.
    - Strings are ASCII strings; on these, the classes [\s] and [\d] of
      Python's [re] are the ones defined below.
    - A Python/numpy float is a real number or one of the special values
      [+inf], [-inf], [nan].  Arithmetic on finite values is exact: rounding
      and overflow of binary64 are not part of the model.
    - Python exceptions are values of the error monad [result]. *)

From Stdlib Require Import String Ascii List Bool Arith ZArith QArith.
From Stdlib Require Import Reals Qreals Lra Lia Sorted.
Import ListNotations.

Set Implicit Arguments.

(* ================================================================== *)
(** ** Python's [re]: the fragment used by the two patterns *)

Module Re.

(** [\s] on ASCII text: tab, LF, VT, FF, CR, the separators FS..US and
    the space. *)
Definition is_space (c : ascii) : bool :=
  let n := nat_of_ascii c in
  ((9 <=? n) && (n <=? 13)) || ((28 <=? n) && (n <=? 32)).

(** [\d] on ASCII text. *)
Definition is_digit (c : ascii) : bool :=
  let n := nat_of_ascii c in
  (48 <=? n) && (n <=? 57).

(** The character class [[-\d.]]. *)
Definition is_num_char (c : ascii) : bool :=
  Ascii.eqb c "-" || is_digit c || Ascii.eqb c ".".

(** A pattern is a sequence of items: a literal character, a greedy
    starred class [cls*], or a capturing group [(cls+)] with a greedy
    plus. *)
Inductive item : Type :=
| Lit (c : ascii)
| Star (cls : ascii -> bool)
| Group (cls : ascii -> bool).

Definition pattern := list item.

(** Backtracking match of the pattern at the start of the text.  The
    result is the list of captured groups of the first successful
    alternative, greedy choices being tried longest first. *)
Fixpoint match_here (p : pattern) (s : list ascii) {struct p}
  : option (list (list ascii)) :=
  match p with
  | [] => Some []
  | Lit c :: p' =>
      match s with
      | x :: s' => if Ascii.eqb x c then match_here p' s' else None
      | [] => None
      end
  | Star cls :: p' =>
      (fix star (s : list ascii) : option (list (list ascii)) :=
         match s with
         | x :: s' =>
             if cls x then
               match star s' with
               | Some g => Some g
               | None => match_here p' s
               end
             else match_here p' s
         | [] => match_here p' s
         end) s
  | Group cls :: p' =>
      match
        (fix plus (s : list ascii)
           : option (list ascii * list (list ascii)) :=
           match s with
           | x :: s' =>
               if cls x then
                 match plus s' with
                 | Some (cap, g) => Some (x :: cap, g)
                 | None =>
                     match match_here p' s' with
                     | Some g => Some ([x], g)
                     | None => None
                     end
                 end
               else None
           | [] => None
           end) s
      with
      | Some (cap, g) => Some (cap :: g)
      | None => None
      end
  end.

(** [re.search]: the match at the leftmost position where one exists. *)
Fixpoint search (p : pattern) (s : list ascii)
  : option (list (list ascii)) :=
  match match_here p s with
  | Some g => Some g
  | None =>
      match s with
      | [] => None
      | _ :: s' => search p s'
      end
  end.




Definition lits (s : string) : pattern :=
  map Lit (list_ascii_of_string s).

Definition ws : item := Star is_space.
Definition number : item := Group is_num_char.

(** [y\s*=\s*([-\d.]+)\s*\*\s*ln\(x\)\s*\+\s*([-\d.]+)] *)
Definition log_pattern : pattern :=
  lits "y" ++ [ws] ++ lits "=" ++ [ws] ++ [number] ++ [ws] ++ lits "*"
    ++ [ws] ++ lits "ln(x)" ++ [ws] ++ lits "+" ++ [ws] ++ [number].

(** [y\s*=\s*([-\d.]+)\s*\*\s*x\s*\+\s*([-\d.]+)] *)
Definition linear_pattern : pattern :=
  lits "y" ++ [ws] ++ lits "=" ++ [ws] ++ [number] ++ [ws] ++ lits "*"
    ++ [ws] ++ lits "x" ++ [ws] ++ lits "+" ++ [ws] ++ [number].

End Re.

(* ================================================================== *)
(** ** Python's [float] on the tokens the groups can capture *)

Module PyFloat.

Definition digit_val (c : ascii) : Z := Z.of_nat (nat_of_ascii c) - 48.

(** Longest prefix of digits, read as a number in base ten on top of
    [acc]; returns the value, the number of digits read and the rest. *)
Fixpoint digits (acc : Z) (n : nat) (s : list ascii)
  : Z * nat * list ascii :=
  match s with
  | c :: s' =>
      if Re.is_digit c then digits (10 * acc + digit_val c) (S n) s'
      else (acc, n, s)
  | [] => (acc, n, s)
  end.

(** Unsigned part: [digits] optionally followed by [.] and [digits],
    with at least one digit in total and nothing left over. *)
Definition unsigned (s : list ascii) : option Q :=
  let '(ip, ni, r) := digits 0 0 s in
  match r with
  | [] => if (0 <? ni)%nat then Some (inject_Z ip) else None
  | c :: r' =>
      if Ascii.eqb c "." then
        let '(m, nf, r'') := digits ip 0 r' in
        match r'' with
        | [] =>
            if (0 <? ni + nf)%nat
            then Some (Qmake m (Z.to_pos (10 ^ Z.of_nat nf)))
            else None
        | _ :: _ => None
        end
      else None
  end.

(** [float(tok)] for a token over the alphabet [[-0-9.]]: an optional
    sign and an unsigned decimal; [None] stands for [ValueError]. *)
Definition parse (s : list ascii) : option Q :=
  match s with
  | c :: s' =>
      if Ascii.eqb c "-" then option_map Qopp (unsigned s')
      else unsigned s
  | [] => None
  end.

End PyFloat.

Definition str (s : string) : list ascii := list_ascii_of_string s.

(* ================================================================== *)
(** ** Floats *)

Local Open Scope R_scope.

(** A float is a real number, an infinity or [nan]. *)
Inductive float : Type :=
| Fin (r : R)
| PInf
| NInf
| NaN.

Definition Rltb (a b : R) : bool := if Rlt_dec a b then true else false.
Definition Rleb (a b : R) : bool := if Rle_dec a b then true else false.
Definition Reqb (a b : R) : bool := if Req_dec_T a b then true else false.

(** Comparisons; every comparison with [nan] is false. *)
Definition flt (x y : float) : bool :=
  match x, y with
  | Fin a, Fin b => Rltb a b
  | Fin _, PInf => true
  | NInf, Fin _ => true
  | NInf, PInf => true
  | _, _ => false
  end.

Definition fle (x y : float) : bool :=
  match x, y with
  | Fin a, Fin b => Rleb a b
  | Fin _, PInf => true
  | NInf, Fin _ => true
  | NInf, PInf => true
  | PInf, PInf => true
  | NInf, NInf => true
  | _, _ => false
  end.

Definition fgt (x y : float) : bool := flt y x.

Definition feq (x y : float) : bool :=
  match x, y with
  | Fin a, Fin b => Reqb a b
  | PInf, PInf => true
  | NInf, NInf => true
  | _, _ => false
  end.

Definition fneg (x : float) : float :=
  match x with
  | Fin a => Fin (- a)
  | PInf => NInf
  | NInf => PInf
  | NaN => NaN
  end.

Definition fadd (x y : float) : float :=
  match x, y with
  | Fin a, Fin b => Fin (a + b)
  | NaN, _ | _, NaN => NaN
  | PInf, NInf | NInf, PInf => NaN
  | PInf, _ | _, PInf => PInf
  | NInf, _ | _, NInf => NInf
  end.

Definition fsub (x y : float) : float := fadd x (fneg y).

(** The infinity with the sign of [a], [nan] for zero. *)
Definition signed_inf (a : R) : float :=
  if Rltb 0 a then PInf else if Rltb a 0 then NInf else NaN.

Definition fmul (x y : float) : float :=
  match x, y with
  | Fin a, Fin b => Fin (a * b)
  | NaN, _ | _, NaN => NaN
  | Fin a, PInf | PInf, Fin a => signed_inf a
  | Fin a, NInf | NInf, Fin a => signed_inf (- a)
  | PInf, PInf | NInf, NInf => PInf
  | PInf, NInf | NInf, PInf => NInf
  end.

(** Division as numpy does it: a division by zero gives an infinity or
    [nan], not an exception (zero is taken as positive zero). *)
Definition fdiv (x y : float) : float :=
  match x, y with
  | Fin a, Fin b => if Reqb b 0 then signed_inf a else Fin (a / b)
  | NaN, _ | _, NaN => NaN
  | Fin _, PInf | Fin _, NInf => Fin 0
  | PInf, Fin b => if Rltb b 0 then NInf else PInf
  | NInf, Fin b => if Rltb b 0 then PInf else NInf
  | PInf, PInf | PInf, NInf | NInf, PInf | NInf, NInf => NaN
  end.

(** [np.log]: [-inf] at zero and [nan] below (with a warning, no
    exception). *)
Definition flog (x : float) : float :=
  match x with
  | Fin a => if Rltb 0 a then Fin (ln a) else if Reqb a 0 then NInf else NaN
  | PInf => PInf
  | NInf => NaN
  | NaN => NaN
  end.

(** [np.exp] *)
Definition fexp (x : float) : float :=
  match x with
  | Fin a => Fin (exp a)
  | PInf => PInf
  | NInf => Fin 0
  | NaN => NaN
  end.

Definition of_nat (n : nat) : float := Fin (INR n).
Definition of_Q (q : Q) : float := Fin (Q2R q).


Definition is_nan (x : float) : bool :=
  match x with NaN => true | _ => false end.

(** Python's built-in [max(a, b)]: [b] when [b > a], otherwise [a]. *)
Definition py_max (a b : float) : float := if fgt b a then b else a.

(* ================================================================== *)
(** ** numpy and pandas helpers *)

Module Np.

Definition set_last (l : list float) (v : float) : list float :=
  removelast l ++ [v].

(** [np.linspace(start, stop, num)] with the default [endpoint=True],
    for [num > 1]:
    [[
      div = num - 1;  y = arange(0, num);  delta = stop - start
      step = delta / div
      if step == 0: y = y / div; y = y * delta   else: y = y * step
      y += start;  y[-1] = stop
    ]] *)
Definition linspace (start stop : float) (num : nat) : list float :=
  let div := of_nat (pred num) in
  let y := map of_nat (seq 0 num) in
  let delta := fsub stop start in
  let step := fdiv delta div in
  let y :=
    if feq step (Fin 0)
    then map (fun v => fmul (fdiv v div) delta) y
    else map (fun v => fmul v step) y in
  let y := map (fun v => fadd v start) y in
  set_last y stop.

(** [a * np.log(x) + b] over an array *)
Definition log_curve (a b : float) (xs : list float) : list float :=
  map (fun x => fadd (fmul a (flog x)) b) xs.

(** [a * x + b] over an array *)
Definition linear_curve (a b : float) (xs : list float) : list float :=
  map (fun x => fadd (fmul a x) b) xs.

(** [np.where(y_uu > 0, x / y_uu, np.nan)] *)
Definition ncpa_where (xs y_uu : list float) : list float :=
  map (fun p => if fgt (snd p) (Fin 0) then fdiv (fst p) (snd p) else NaN)
      (combine xs y_uu).

(** [Series.max()] and [Series.min()]: missing values ([nan]) are
    skipped; the result is [nan] when nothing is left. *)
Definition nanmax (l : list float) : float :=
  fold_left (fun acc x =>
               if is_nan x then acc
               else if is_nan acc then x
               else if flt acc x then x else acc) l NaN.

Definition nanmin (l : list float) : float :=
  fold_left (fun acc x =>
               if is_nan x then acc
               else if is_nan acc then x
               else if flt x acc then x else acc) l NaN.

End Np.

(* ================================================================== *)
(** ** Exceptions *)

(** The columns of the summary table, named by their header:
    [Brand] 出品者カテゴリー, [LogEq] 広告費と広告新規UUの対数回帰式,
    [R2Log] 決定係数(対数), [XMin] データ範囲 min x, [XMax] データ範囲 max x,
    [LinEq] 広告費と広告新規UUの線形回帰式, [R2Lin] 決定係数(線形). *)
Inductive column : Type :=
| Brand | LogEq | R2Log | XMin | XMax | LinEq | R2Lin.

Definition column_eqb (a b : column) : bool :=
  match a, b with
  | Brand, Brand | LogEq, LogEq | R2Log, R2Log | XMin, XMin
  | XMax, XMax | LinEq, LinEq | R2Lin, R2Lin => true
  | _, _ => false
  end.

Inductive exn : Type :=
| KeyError (c : column)
| TypeError
| ValueError.

Inductive result (A : Type) : Type :=
| Ok (a : A)
| Raise (e : exn).

Arguments Ok {A} a.
Arguments Raise {A} e.

Definition bind {A B : Type} (m : result A) (k : A -> result B) : result B :=
  match m with
  | Ok a => k a
  | Raise e => Raise e
  end.

Notation "x <- m ;; k" := (bind m (fun x => k))
  (at level 61, m at next level, right associativity).

(** Sequential traversal of a list, stopping at the first exception. *)
Fixpoint mapM {A B : Type} (f : A -> result B) (l : list A)
  : result (list B) :=
  match l with
  | [] => Ok []
  | a :: l' => b <- f a ;; bs <- mapM f l' ;; Ok (b :: bs)
  end.

(* ================================================================== *)
(** ** The equation parsers *)

(** A cell of an equation column as [read_csv] leaves it: a string, or a
    number ([Number NaN] for an empty cell). *)
Inductive cell : Type :=
| Text (s : string)
| Number (x : float).

(** [re.search(pattern, eq_str)] followed by [float] on both groups.
    [re.search] raises [TypeError] on a value that is not a string and
    [float] raises [ValueError] on a token that is not a number. *)
Definition py_float (tok : list ascii) : result float :=
  match PyFloat.parse tok with
  | Some q => Ok (of_Q q)
  | None => Raise ValueError
  end.

(** [match.group(n)] for [n >= 1] *)
Definition group (g : list (list ascii)) (n : nat) : list ascii :=
  nth (pred n) g [].

Definition parse_with (p : Re.pattern) (eq_str : cell)
  : result (option (float * float)) :=
  match eq_str with
  | Number _ => Raise TypeError
  | Text s =>
      match Re.search p (str s) with
      | Some g =>
          a <- py_float (group g 1) ;;
          b <- py_float (group g 2) ;;
          Ok (Some (a, b))
      | None => Ok None
      end
  end.

Definition parse_log_equation (eq_str : cell)
  : result (option (float * float)) :=
  parse_with Re.log_pattern eq_str.

Definition parse_linear_equation (eq_str : cell)
  : result (option (float * float)) :=
  parse_with Re.linear_pattern eq_str.

(** The model kinds, and the parser of each. *)
Inductive kind : Type := Logarithmic | Linear.

Definition parse_equation (k : kind) (eq_str : cell)
  : result (option (float * float)) :=
  match k with
  | Logarithmic => parse_log_equation eq_str
  | Linear => parse_linear_equation eq_str
  end.

Definition pattern_of (k : kind) : Re.pattern :=
  match k with
  | Logarithmic => Re.log_pattern
  | Linear => Re.linear_pattern
  end.


(* ================================================================== *)
(** ** The table and the chart traces *)

(** One row of the table after the numeric coercion of the handler: the
    four numeric columns hold floats, [NaN] standing for a missing or
    non-numeric cell.  A field of a column that the table does not have is
    never read: access goes through [get]. *)
Record Row : Type := mkRow {
  brand : string;
  log_eq : cell;
  r2_log : float;
  x_min : float;
  x_max : float;
  lin_eq : cell;
  r2_lin : float
}.

Record DataFrame : Type := mkDF {
  columns : list column;
  rows : list Row
}.

Definition has_column (df : DataFrame) (c : column) : bool :=
  existsb (column_eqb c) (columns df).

(** [df[c]] and [row[c]]: [KeyError] when the table has no column [c]. *)
Definition get {A : Type} (df : DataFrame) (c : column) (v : A) : result A :=
  if has_column df c then Ok v else Raise (KeyError c).

(** The selectbox: 対数回帰（サチュレーションあり）, 線形回帰（サチュレーションなし）,
    両方表示. *)
Inductive graph_type : Type := LogOnly | LinearOnly | BothModels.

Definition shows_log (gt : graph_type) : bool :=
  match gt with LogOnly | BothModels => true | LinearOnly => false end.

Definition shows_linear (gt : graph_type) : bool :=
  match gt with LinearOnly | BothModels => true | LogOnly => false end.

Inductive region : Type := Observed | ExtrapolatedLow | ExtrapolatedHigh.

(** One [go.Scatter] trace: the row it belongs to, its colour index in the
    palette of 15, the model, the sub-range it covers and the samples.
    Labels, hover templates and line styles are left out. *)
Record trace : Type := mkTrace {
  t_segment : nat;
  t_color : nat;
  t_kind : kind;
  t_region : region;
  t_x : list float;
  t_y : list float
}.

Definition curve (k : kind) : float -> float -> list float -> list float :=
  match k with
  | Logarithmic => Np.log_curve
  | Linear => Np.linear_curve
  end.

Definition palette_size : nat := 15.

(** The acquisition value of a model at one point: [a * ln(x) + b] or
    [a * x + b]; [curve] maps it over the samples. *)
Definition uu_at (k : kind) (a b x : float) : float :=
  match k with
  | Logarithmic => fadd (fmul a (flog x)) b
  | Linear => fadd (fmul a x) b
  end.


(** A sample [(x, y)] of a cost-metric series of the model [k] with
    coefficients [(a, b)] is guarded when y is [nan] wherever the
    denominator is [<= 0] (or not [> 0] at all), and the quotient
    otherwise. *)
Definition guarded (k : kind) (a b x y : float) : Prop :=
  let d := uu_at k a b x in
  (fle d (Fin 0) = true -> y = NaN) /\
  (fgt d (Fin 0) = false -> y = NaN) /\
  (fgt d (Fin 0) = true -> y = fdiv x d).




(* ================================================================== *)
(** ** [generate_graph] *)

(** The traces added for one row and one model once the coefficients are
    known: the observed range, then the two extrapolated ranges. *)
Definition uu_traces (k : kind) (i : nat) (a b : float)
    (x_min x_max all_x_min all_x_max : float) (show_extrapolation : bool)
  : list trace :=
  let x_data := Np.linspace x_min x_max 300 in
  let y_data := curve k a b x_data in
  mkTrace i (i mod palette_size) k Observed x_data y_data
  :: (if show_extrapolation then
        (if flt all_x_min x_min then
           let x_ext_left := Np.linspace all_x_min x_min 100 in
           [mkTrace i (i mod palette_size) k ExtrapolatedLow
                    x_ext_left (curve k a b x_ext_left)]
         else [])
        ++
        (if fgt all_x_max x_max then
           let x_ext_right := Np.linspace x_max all_x_max 100 in
           [mkTrace i (i mod palette_size) k ExtrapolatedHigh
                    x_ext_right (curve k a b x_ext_right)]
         else [])
      else []).

(** The body of the loop of [generate_graph] for the row of index [i]. *)
Definition graph_row (df : DataFrame) (gt : graph_type)
    (show_extrapolation : bool) (all_x_min all_x_max : float)
    (i : nat) (row : Row) : result (list trace) :=
  _ <- get df Brand (brand row) ;;
  x_min <- get df XMin (x_min row) ;;
  x_max <- get df XMax (x_max row) ;;
  log_part <-
    (if shows_log gt then
       eq <- get df LogEq (log_eq row) ;;
       ab <- parse_log_equation eq ;;
       _ <- get df R2Log (r2_log row) ;;
       match ab with
       | Some (a_log, b_log) =>
           Ok (uu_traces Logarithmic i a_log b_log x_min x_max
                         all_x_min all_x_max show_extrapolation)
       | None => Ok []
       end
     else Ok []) ;;
  lin_part <-
    (if shows_linear gt then
       eq <- get df LinEq (lin_eq row) ;;
       ab <- parse_linear_equation eq ;;
       _ <- get df R2Lin (r2_lin row) ;;
       match ab with
       | Some (a_lin, b_lin) =>
           Ok (uu_traces Linear i a_lin b_lin x_min x_max
                         all_x_min all_x_max show_extrapolation)
       | None => Ok []
       end
     else Ok []) ;;
  Ok (log_part ++ lin_part).

(** [enumerate(df.iterrows())] *)
Definition enumerate (df : DataFrame) : list (nat * Row) :=
  combine (seq 0 (length (rows df))) (rows df).

Definition generate_graph (df : DataFrame) (gt : graph_type)
    (show_extrapolation : bool) (extrap_ratio : float)
  : result (list trace) :=
  xmins <- get df XMin (map x_min (rows df)) ;;
  xmaxs <- get df XMax (map x_max (rows df)) ;;
  let all_x_min := Np.nanmin xmins in
  let all_x_max := fmul (Np.nanmax xmaxs) extrap_ratio in
  per_row <- mapM (fun ir => graph_row df gt show_extrapolation
                               all_x_min all_x_max (fst ir) (snd ir))
                  (enumerate df) ;;
  Ok (concat per_row).

(* ================================================================== *)
(** ** [find_ncpa_minimum_log] and [generate_ncpa_graph] *)

Definition find_ncpa_minimum_log (a b : float) : option float :=
  if fle a (Fin 0) then None
  else
    let x_min := fexp (fsub (Fin 1) (fdiv b a)) in
    let uu_at_min := fadd (fmul a (flog x_min)) b in
    if fgt uu_at_min (Fin 0) then Some x_min else None.

(** The start of the displayed range of the cost metric of a log model. *)
Definition ncpa_x_start (a_log b_log x_min : float) : float :=
  match find_ncpa_minimum_log a_log b_log with
  | Some x_ncpa_min => py_max x_ncpa_min x_min
  | None => x_min
  end.

Definition ncpa_high (k : kind) (i : nat) (a b x_max all_x_max : float)
    (show_extrapolation : bool) : list trace :=
  if show_extrapolation && fgt all_x_max x_max then
    let x_ext_right := Np.linspace x_max all_x_max 100 in
    let y_uu_right := curve k a b x_ext_right in
    [mkTrace i (i mod palette_size) k ExtrapolatedHigh
             x_ext_right (Np.ncpa_where x_ext_right y_uu_right)]
  else [].

Definition ncpa_log_traces (i : nat) (a_log b_log : float)
    (x_min x_max all_x_max : float) (show_extrapolation : bool)
  : list trace :=
  let x_start := ncpa_x_start a_log b_log x_min in
  if flt x_start x_max then
    let x_data := Np.linspace x_start x_max 300 in
    let y_uu := Np.log_curve a_log b_log x_data in
    let y_ncpa := Np.ncpa_where x_data y_uu in
    mkTrace i (i mod palette_size) Logarithmic Observed x_data y_ncpa
    :: ncpa_high Logarithmic i a_log b_log x_max all_x_max show_extrapolation
  else [].

Definition ncpa_linear_traces (i : nat) (a_lin b_lin : float)
    (x_min x_max all_x_max : float) (show_extrapolation : bool)
  : list trace :=
  let x_data := Np.linspace x_min x_max 300 in
  let y_uu := Np.linear_curve a_lin b_lin x_data in
  let y_ncpa := Np.ncpa_where x_data y_uu in
  mkTrace i (i mod palette_size) Linear Observed x_data y_ncpa
  :: ncpa_high Linear i a_lin b_lin x_max all_x_max show_extrapolation.

Definition ncpa_row (df : DataFrame) (gt : graph_type)
    (show_extrapolation : bool) (all_x_max : float)
    (i : nat) (row : Row) : result (list trace) :=
  _ <- get df Brand (brand row) ;;
  x_min <- get df XMin (x_min row) ;;
  x_max <- get df XMax (x_max row) ;;
  log_part <-
    (if shows_log gt then
       eq <- get df LogEq (log_eq row) ;;
       ab <- parse_log_equation eq ;;
       _ <- get df R2Log (r2_log row) ;;
       match ab with
       | Some (a_log, b_log) =>
           Ok (ncpa_log_traces i a_log b_log x_min x_max all_x_max
                               show_extrapolation)
       | None => Ok []
       end
     else Ok []) ;;
  lin_part <-
    (if shows_linear gt then
       eq <- get df LinEq (lin_eq row) ;;
       ab <- parse_linear_equation eq ;;
       _ <- get df R2Lin (r2_lin row) ;;
       match ab with
       | Some (a_lin, b_lin) =>
           Ok (ncpa_linear_traces i a_lin b_lin x_min x_max all_x_max
                                  show_extrapolation)
       | None => Ok []
       end
     else Ok []) ;;
  Ok (log_part ++ lin_part).

Definition generate_ncpa_graph (df : DataFrame) (gt : graph_type)
    (show_extrapolation : bool) (extrap_ratio : float)
  : result (list trace) :=
  xmaxs <- get df XMax (map x_max (rows df)) ;;
  let all_x_max := fmul (Np.nanmax xmaxs) extrap_ratio in
  per_row <- mapM (fun ir => ncpa_row df gt show_extrapolation
                               all_x_max (fst ir) (snd ir))
                  (enumerate df) ;;
  Ok (concat per_row).

(* ================================================================== *)
(** ** The handler of the generate button *)

(** [st.session_state] *)
Record session : Type := mkSession {
  fig_uu : option (list trace);
  fig_ncpa : option (list trace);
  graph_generated : bool;
  brand_count : nat
}.

Definition initial_session : session := mkSession None None false 0.

(** What [st.error] shows: the missing required columns, or the exception
    caught by the top-level handler. *)
Inductive message : Type :=
| MissingColumns (cols : list column)
| Exception (e : exn).

Definition required_cols : list column := [Brand; XMin; XMax].

(** [df[c] = pd.to_numeric(df[c], errors='coerce')]: the values are
    floats already, reading the column can raise. *)
Definition to_numeric (df : DataFrame) (c : column) : result unit :=
  get df c tt.

Definition on_generate (st : session) (df : DataFrame) (gt : graph_type)
    (show_extrapolation : bool) (extrapolation_ratio : float)
  : session * list message :=
  let missing_cols :=
    filter (fun c => negb (has_column df c)) required_cols in
  match missing_cols with
  | _ :: _ => (st, [MissingColumns missing_cols])
  | [] =>
      match
        (_ <- to_numeric df XMin ;;
         _ <- to_numeric df XMax ;;
         _ <- to_numeric df R2Log ;;
         to_numeric df R2Lin)
      with
      | Raise e => (st, [Exception e])
      | Ok _ =>
          match generate_graph df gt show_extrapolation
                               extrapolation_ratio with
          | Raise e => (st, [Exception e])
          | Ok f_uu =>
              let st1 := mkSession (Some f_uu) (fig_ncpa st)
                                   (graph_generated st) (brand_count st) in
              match generate_ncpa_graph df gt show_extrapolation
                                        extrapolation_ratio with
              | Raise e => (st1, [Exception e])
              | Ok f_ncpa =>
                  (mkSession (Some f_uu) (Some f_ncpa) true
                             (length (rows df)), [])
              end
          end
      end
  end.

(** The charts are shown when [graph_generated] is set and [fig_uu] is
    there. *)
Definition charts_shown (st : session) : bool :=
  graph_generated st && match fig_uu st with Some _ => true | None => false end.

(* ================================================================== *)
(** ** Further notions used by the properties *)



(** The palette of both chart builders. *)
Definition colors : list string :=
  [ "#1f77b4"; "#ff7f0e"; "#2ca02c"; "#d62728"; "#9467bd";
    "#8c564b"; "#e377c2"; "#7f7f7f"; "#bcbd22"; "#17becf";
    "#aec7e8"; "#ffbb78"; "#98df8a"; "#ff9896"; "#c5b0d5" ]%string.

(** The key under which two traces are the same line of a chart. *)
Definition same_line (t u : trace) : Prop :=
  t_segment t = t_segment u /\ t_kind t = t_kind u /\
  t_region t = t_region u.



(* ================================================================== *)
(** ** Sample tables *)

Definition all_columns : list column :=
  [Brand; LogEq; R2Log; XMin; XMax; LinEq; R2Lin].

(** A row with both equations, over the observed domain [[lo, hi]]. *)
Definition sample_row (name : string) (lo hi : R) : Row :=
  mkRow name (Text "y = 2 * ln(x) + 3") (Fin 0.61) (Fin lo) (Fin hi)
        (Text "y = 0.0013 * x + 54.4297") (Fin 0.6).

(** Two segments whose observed maxima differ. *)
Definition two_segments : DataFrame :=
  mkDF all_columns [sample_row "A" 10 100; sample_row "B" 10 200].

(** One segment whose observed domain starts at zero. *)
Definition zero_min : DataFrame :=
  mkDF all_columns [sample_row "A" 0 100].

(** One segment whose logarithmic equation cell is empty. *)
Definition empty_log_cell : DataFrame :=
  mkDF all_columns
       [mkRow "A" (Number NaN) NaN (Fin 150) (Fin 195023)
              (Text "y = 0.0013 * x + 54.4297") (Fin 0.6)].

(** A table without the two columns of the linear model; the fields of
    the absent columns are never read. *)
Definition no_linear_columns : DataFrame :=
  mkDF [Brand; LogEq; R2Log; XMin; XMax]
       [mkRow "A" (Text "y = 2 * ln(x) + 3") (Fin 0.61) (Fin 150)
              (Fin 195023) (Number NaN) NaN].

(* ================================================================== *)
(** * Properties *)

(** ** Comparisons on floats *)

Lemma Rltb_true (a b : R) : Rltb a b = true <-> a < b.
Proof. unfold Rltb. destruct (Rlt_dec a b); split; intros; try easy. Qed.

Lemma Rltb_false (a b : R) : Rltb a b = false <-> b <= a.
Proof.
  unfold Rltb. destruct (Rlt_dec a b); split; intros; try easy; lra.
Qed.

Lemma Rleb_true (a b : R) : Rleb a b = true <-> a <= b.
Proof. unfold Rleb. destruct (Rle_dec a b); split; intros; try easy. Qed.

Lemma Rleb_false (a b : R) : Rleb a b = false <-> b < a.
Proof.
  unfold Rleb. destruct (Rle_dec a b); split; intros; try easy; lra.
Qed.

Lemma Reqb_true (a b : R) : Reqb a b = true <-> a = b.
Proof. unfold Reqb. destruct (Req_dec_T a b); split; intros; try easy. Qed.

Lemma Reqb_false (a b : R) : Reqb a b = false <-> a <> b.
Proof. unfold Reqb. destruct (Req_dec_T a b); split; intros; try easy. Qed.

(** Turns the boolean comparisons of the context and the goal into
    propositions on reals. *)
Ltac rbool :=
  repeat match goal with
    | H : Rltb _ _ = true |- _ => apply Rltb_true in H
    | H : Rltb _ _ = false |- _ => apply Rltb_false in H
    | H : Rleb _ _ = true |- _ => apply Rleb_true in H
    | H : Rleb _ _ = false |- _ => apply Rleb_false in H
    | H : Reqb _ _ = true |- _ => apply Reqb_true in H
    | H : Reqb _ _ = false |- _ => apply Reqb_false in H
    | |- Rltb _ _ = true => apply Rltb_true
    | |- Rltb _ _ = false => apply Rltb_false
    | |- Rleb _ _ = true => apply Rleb_true
    | |- Rleb _ _ = false => apply Rleb_false
    | |- Reqb _ _ = true => apply Reqb_true
    | |- Reqb _ _ = false => apply Reqb_false
    end.

(** ** The matcher *)

Module ReFacts.
Import Re.










End ReFacts.

(** ** The equation parsers *)


Lemma parse_equation_text (k : kind) (s : string) :
  parse_equation k (Text s) =
  match Re.search (pattern_of k) (str s) with
  | Some g =>
      a <- py_float (group g 1) ;; b <- py_float (group g 2) ;;
      Ok (Some (a, b))
  | None => Ok None
  end.
Proof. destruct k; reflexivity. Qed.



(** ** Substring search *)



(** The example of the claim parses to the coefficients 2 and 3. *)
Example parse_note_approx :
  parse_equation Logarithmic (Text "note: y = 2 * ln(x) + 3 (approx)")
  = Ok (Some (of_Q 2, of_Q 3)).
Proof.
  rewrite parse_equation_text.
  replace (Re.search _ _) with (Some [str "2"; str "3"])
    by (vm_compute; reflexivity).
  unfold group, py_float; cbn [nth pred].
  replace (PyFloat.parse (str "2")) with (Some 2%Q) by (vm_compute; reflexivity).
  replace (PyFloat.parse (str "3")) with (Some 3%Q) by (vm_compute; reflexivity).
  reflexivity.
Qed.




(** ** The minimum of the cost metric *)

Lemma fgt_not_fle (x : float) :
  fgt x (Fin 0) = true -> fle x (Fin 0) = false.
Proof.
  destruct x; cbn; intros H; try reflexivity; try discriminate.
  rbool. lra.
Qed.

Lemma fle_not_fgt (x : float) :
  fle x (Fin 0) = true -> fgt x (Fin 0) = false.
Proof.
  destruct x; cbn; intros H; try reflexivity; try discriminate.
  rbool. lra.
Qed.

(** Only [nan] is neither [<= 0] nor [> 0]. *)
Lemma not_fle_not_fgt (x : float) :
  fle x (Fin 0) = false -> fgt x (Fin 0) = false -> x = NaN.
Proof.
  destruct x; cbn; intros H1 H2; try reflexivity; try discriminate.
  rbool. lra.
Qed.

Lemma uu_at_nan_coefficient (b : float) :
  fgt (fadd (fmul NaN (flog (fexp (fsub (Fin 1) (fdiv b NaN))))) b) (Fin 0)
  = false.
Proof. destruct b; reflexivity. Qed.

(** C2.  With [x_star = exp(1 - b/a)] and [uu = a * ln x_star + b], the
    minimum point is [x_star] exactly when [a > 0] and [uu > 0]; in every other case
    ([a <= 0], [a] not a number, or [uu] not positive) it is undefined, the
    displayed range starts at [x_min], and the observed series of the cost
    metric, when there is one, is sampled from [x_min] to [x_max]. *)
Theorem find_ncpa_minimum_log_cases (a b : float) :
  let x_star := fexp (fsub (Fin 1) (fdiv b a)) in
  let uu := fadd (fmul a (flog x_star)) b in
  (find_ncpa_minimum_log a b = Some x_star <->
   fgt a (Fin 0) = true /\ fgt uu (Fin 0) = true)
  /\
  (find_ncpa_minimum_log a b = None <->
   ~ (fgt a (Fin 0) = true /\ fgt uu (Fin 0) = true))
  /\
  (find_ncpa_minimum_log a b = None ->
   forall (i : nat) (x_min x_max all_x_max : float) (show : bool),
     ncpa_x_start a b x_min = x_min /\
     (flt x_min x_max = true ->
      exists y_ncpa rest,
        ncpa_log_traces i a b x_min x_max all_x_max show =
        mkTrace i (i mod palette_size) Logarithmic Observed
                (Np.linspace x_min x_max 300) y_ncpa :: rest)).
Proof.
  intros x_star uu.
  assert (Hsome : find_ncpa_minimum_log a b = Some x_star <->
                  fgt a (Fin 0) = true /\ fgt uu (Fin 0) = true).
  { unfold find_ncpa_minimum_log. fold x_star. fold uu. split.
    - destruct (fle a (Fin 0)) eqn:Ha; [discriminate|].
      destruct (fgt uu (Fin 0)) eqn:Hu; [|discriminate].
      intros _. split; [|reflexivity].
      destruct (fgt a (Fin 0)) eqn:Hg; [reflexivity|].
      pose proof (not_fle_not_fgt _ Ha Hg) as ->.
      subst uu x_star. now rewrite uu_at_nan_coefficient in Hu.
    - intros [Ha Hu]. now rewrite (fgt_not_fle _ Ha), Hu. }
  assert (Hnone : find_ncpa_minimum_log a b = None <->
                  ~ (fgt a (Fin 0) = true /\ fgt uu (Fin 0) = true)).
  { split.
    - intros Hn Hc. apply Hsome in Hc. congruence.
    - intros Hc. unfold find_ncpa_minimum_log. fold x_star. fold uu.
      destruct (fle a (Fin 0)) eqn:Ha; [reflexivity|].
      destruct (fgt uu (Fin 0)) eqn:Hu; [|reflexivity].
      exfalso. apply Hc. split; [|reflexivity].
      destruct (fgt a (Fin 0)) eqn:Hg; [reflexivity|].
      pose proof (not_fle_not_fgt _ Ha Hg) as ->.
      subst uu x_star. now rewrite uu_at_nan_coefficient in Hu. }
  split; [exact Hsome|]. split; [exact Hnone|].
  intros Hn i x_min x_max all_x_max show.
  assert (Hs : ncpa_x_start a b x_min = x_min)
    by (unfold ncpa_x_start; now rewrite Hn).
  split; [exact Hs|]. intros Hlt.
  unfold ncpa_log_traces. rewrite Hs, Hlt. eauto.
Qed.

(** ** Sampling *)

Lemma curve_map (k : kind) (a b : float) (xs : list float) :
  curve k a b xs = map (uu_at k a b) xs.
Proof. destruct k; reflexivity. Qed.

Lemma set_last_snoc (l : list float) (x v : float) :
  Np.set_last (l ++ [x]) v = l ++ [v].
Proof. unfold Np.set_last. now rewrite removelast_last. Qed.

(** The samples of [linspace] between two finite bounds, for [m + 1 >= 2]
    samples: [lo + i * (hi - lo) / m] for [i < m], then [hi] itself. *)
Lemma linspace_finite (lo hi : R) (m : nat) :
  (0 < m)%nat ->
  Np.linspace (Fin lo) (Fin hi) (S m) =
  map (fun i => Fin (lo + INR i * ((hi - lo) / INR m))) (seq 0 m) ++ [Fin hi].
Proof.
  intros Hm.
  assert (Hm' : INR m <> 0) by (apply not_0_INR; lia).
  unfold Np.linspace. cbn [pred].
  change (fsub (Fin hi) (Fin lo)) with (Fin (hi + - lo)).
  assert (Hd : Reqb (INR m) 0 = false) by now rbool.
  assert (Hquot : forall r, fdiv (Fin r) (of_nat m) = Fin (r / INR m))
    by (intros r; unfold of_nat; cbn [fdiv]; now rewrite Hd).
  rewrite Hquot. cbn [feq].
  rewrite seq_S. cbn [Nat.add].
  destruct (Reqb ((hi + - lo) / INR m) 0) eqn:Hz; rbool;
    rewrite !map_app; cbn [map]; rewrite set_last_snoc; f_equal;
    rewrite !map_map; apply map_ext; intros i.
  - unfold of_nat at 1. rewrite Hquot. cbn [fmul fadd]. f_equal.
    assert (hi + - lo = 0).
    { apply (Rmult_eq_compat_r (INR m)) in Hz. field_simplify in Hz; lra. }
    replace (hi - lo) with 0 by lra. replace (hi + - lo) with 0 by lra.
    unfold Rdiv. lra.
  - unfold of_nat. cbn [fmul fadd]. f_equal. unfold Rminus. lra.
Qed.

Lemma linspace_length (lo hi : R) (m : nat) :
  (0 < m)%nat -> length (Np.linspace (Fin lo) (Fin hi) (S m)) = S m.
Proof.
  intros Hm. rewrite linspace_finite by assumption.
  rewrite length_app, length_map, length_seq. cbn. lia.
Qed.

Lemma linspace_first (lo hi : R) (m : nat) :
  (0 < m)%nat -> hd NaN (Np.linspace (Fin lo) (Fin hi) (S m)) = Fin lo.
Proof.
  intros Hm. rewrite linspace_finite by assumption.
  destruct m as [|m]; [lia|]. cbn [seq map app hd INR].
  f_equal. lra.
Qed.

Lemma linspace_last (lo hi : R) (m : nat) :
  (0 < m)%nat -> last (Np.linspace (Fin lo) (Fin hi) (S m)) NaN = Fin hi.
Proof.
  intros Hm. rewrite linspace_finite by assumption. apply last_last.
Qed.


(** The sample of index [i] lies between the bounds and grows with [i]. *)
Lemma sample_bounds (lo hi : R) (m i : nat) :
  lo < hi -> (i < m)%nat ->
  lo <= lo + INR i * ((hi - lo) / INR m) < hi.
Proof.
  intros Hlt Hi.
  assert (Hm : 0 < INR m) by (apply lt_0_INR; lia).
  assert (Hi' : INR i < INR m) by now apply lt_INR.
  assert (Hi0 : 0 <= INR i) by apply pos_INR.
  set (s := (hi - lo) / INR m).
  assert (Hs : 0 < s) by (apply Rdiv_lt_0_compat; lra).
  assert (Hsm : s * INR m = hi - lo) by (unfold s; field; lra).
  nra.
Qed.



(** ** The observed series of the acquisition chart *)





(** ** The series of the cost-metric chart *)

Lemma fle_not_flt (x y : float) : fle y x = true -> flt x y = false.
Proof.
  destruct x, y; cbn; intros H; try reflexivity; try discriminate.
  rbool. lra.
Qed.


Lemma py_max_finite (m lo : R) : py_max (Fin m) (Fin lo) = Fin (Rmax m lo).
Proof.
  unfold py_max, fgt, Rmax. cbn.
  destruct (Rltb m lo) eqn:H; rbool; destruct (Rle_dec m lo);
    f_equal; lra.
Qed.

Lemma linspace_within (lo hi : R) (m : nat) :
  lo < hi -> (0 < m)%nat ->
  Forall (fun x => fle (Fin lo) x = true /\ fle x (Fin hi) = true)
         (Np.linspace (Fin lo) (Fin hi) (S m)).
Proof.
  intros Hlt Hm. rewrite linspace_finite by assumption.
  apply Forall_app. split.
  - apply Forall_forall. intros x Hx.
    apply in_map_iff in Hx as (j & <- & Hj). apply in_seq in Hj.
    pose proof (sample_bounds (m := m) (i := j) Hlt ltac:(lia)).
    cbn. split; rbool; lra.
  - repeat constructor; cbn; rbool; lra.
Qed.

Lemma ncpa_high_regions (k : kind) (i : nat) (a b x_max all_x_max : float)
      (show : bool) :
  Forall (fun t =>
            t_region t = ExtrapolatedHigh /\
            t_x t = Np.linspace x_max all_x_max 100 /\
            show = true /\ fgt all_x_max x_max = true)
         (ncpa_high k i a b x_max all_x_max show).
Proof.
  unfold ncpa_high. destruct show; cbn [andb]; [|constructor].
  destruct (fgt all_x_max x_max); repeat constructor.
Qed.

(** C5.  For a segment with a log fit [(a, b)], the displayed range of the
    cost metric starts at [max(x_star, x_min)] (at [x_min] when the minimum
    is undefined).  When the start is below [x_max] the observed series is
    sampled from the start to [x_max]: 300 samples, the first at the start,
    the last at [x_max], all within the two.  When the start is not below
    [x_max] (in particular when it is [>= x_max]) the segment contributes
    no series at all for the log model.  No series of the cost chart, log
    or linear, is a low-side extrapolation, and a high-side one is sampled
    from [x_max] to the global maximum. *)
Theorem ncpa_log_display_range (i : nat) (a b x_min x_max all_x_max : float)
    (show : bool) :
  let x_start := ncpa_x_start a b x_min in
  let traces := ncpa_log_traces i a b x_min x_max all_x_max show in
  (forall m, find_ncpa_minimum_log a b = Some m ->
             x_start = py_max m x_min) /\
  (forall m lo, find_ncpa_minimum_log a b = Some (Fin m) ->
                x_min = Fin lo -> x_start = Fin (Rmax m lo)) /\
  (find_ncpa_minimum_log a b = None -> x_start = x_min) /\
  (flt x_start x_max = true ->
   exists y_ncpa,
     traces =
     mkTrace i (i mod palette_size) Logarithmic Observed
             (Np.linspace x_start x_max 300) y_ncpa
     :: ncpa_high Logarithmic i a b x_max all_x_max show) /\
  (forall s hi, x_start = Fin s -> x_max = Fin hi -> s < hi ->
     let xs := Np.linspace x_start x_max 300 in
     length xs = 300%nat /\ hd NaN xs = x_start /\ last xs NaN = x_max /\
     Forall (fun x => fle x_start x = true /\ fle x x_max = true) xs) /\
  (flt x_start x_max = false -> traces = []) /\
  (fle x_max x_start = true -> traces = []) /\
  Forall (fun t => t_region t <> ExtrapolatedLow)
         (traces ++ ncpa_linear_traces i a b x_min x_max all_x_max show) /\
  Forall (fun t => t_region t = ExtrapolatedHigh ->
                   t_x t = Np.linspace x_max all_x_max 100)
         (traces ++ ncpa_linear_traces i a b x_min x_max all_x_max show).
Proof.
  intros x_start traces.
  assert (Hnone : flt x_start x_max = false -> traces = []).
  { intros H. unfold traces, ncpa_log_traces. fold x_start. now rewrite H. }
  assert (Hall : Forall (fun t => t_region t <> ExtrapolatedLow /\
                                  (t_region t = ExtrapolatedHigh ->
                                   t_x t = Np.linspace x_max all_x_max 100))
                        (traces ++ ncpa_linear_traces i a b x_min x_max
                                                      all_x_max show)).
  { apply Forall_app. split.
    - unfold traces, ncpa_log_traces. fold x_start.
      destruct (flt x_start x_max); [|constructor].
      constructor; [cbn; split; [discriminate|discriminate]|].
      eapply Forall_impl; [|apply ncpa_high_regions].
      cbn. intros t (Hr & Hx & _). rewrite Hr. split; [discriminate|auto].
    - unfold ncpa_linear_traces.
      constructor; [cbn; split; [discriminate|discriminate]|].
      eapply Forall_impl; [|apply ncpa_high_regions].
      cbn. intros t (Hr & Hx & _). rewrite Hr. split; [discriminate|auto]. }
  repeat match goal with |- _ /\ _ => split end.
  - intros m Hm. unfold x_start, ncpa_x_start. now rewrite Hm.
  - intros m lo Hm ->. unfold x_start, ncpa_x_start. rewrite Hm.
    apply py_max_finite.
  - intros Hn. unfold x_start, ncpa_x_start. now rewrite Hn.
  - intros Hlt. unfold traces, ncpa_log_traces. fold x_start.
    rewrite Hlt. eauto.
  - intros s hi -> -> Hlt xs. unfold xs.
    assert (H299 : (0 < 299)%nat) by lia.
    split; [now apply linspace_length|].
    split; [now apply linspace_first|].
    split; [now apply linspace_last|].
    now apply linspace_within.
  - exact Hnone.
  - intros Hle. apply Hnone. now apply fle_not_flt.
  - eapply Forall_impl; [|exact Hall]. cbn. intros t [H _]. exact H.
  - eapply Forall_impl; [|exact Hall]. cbn. intros t [_ H]. exact H.
Qed.

(** ** The guarded division *)

Lemma ncpa_where_spec (f : float -> float) (xs : list float) :
  Forall2 (fun x y =>
             y = if fgt (f x) (Fin 0) then fdiv x (f x) else NaN)
          xs (Np.ncpa_where xs (map f xs)).
Proof.
  unfold Np.ncpa_where.
  induction xs as [|x xs IH]; cbn; constructor; auto.
Qed.

Lemma guarded_sample (d x y : float) :
  y = (if fgt d (Fin 0) then fdiv x d else NaN) ->
  (fle d (Fin 0) = true -> y = NaN) /\
  (fgt d (Fin 0) = false -> y = NaN) /\
  (fgt d (Fin 0) = true -> y = fdiv x d).
Proof.
  intros ->. repeat split.
  - intros H. now rewrite (fle_not_fgt _ H).
  - now intros ->.
  - now intros ->.
Qed.

Lemma ncpa_high_guarded (k : kind) (i : nat) (a b x_max all_x_max : float)
      (show : bool) :
  Forall (fun t => Forall2 (guarded k a b) (t_x t) (t_y t))
         (ncpa_high k i a b x_max all_x_max show).
Proof.
  unfold ncpa_high.
  destruct (show && fgt all_x_max x_max); constructor; [|constructor].
  cbn [t_x t_y]. rewrite curve_map.
  eapply Forall2_impl; [|apply ncpa_where_spec].
  intros x y. apply guarded_sample.
Qed.

(** C6.  In every series of the cost-metric chart (log or linear, observed
    or extrapolated), a sample whose denominator [a*ln(x)+b] (resp.
    [a*x+b]) is [<= 0], or is not [> 0] at all, has the y value [nan];
    otherwise y is the quotient [x / denominator]. *)
Theorem ncpa_samples_guarded (i : nat)
    (a_log b_log a_lin b_lin x_min x_max all_x_max : float) (show : bool) :
  Forall (fun t => Forall2 (guarded Logarithmic a_log b_log) (t_x t) (t_y t))
         (ncpa_log_traces i a_log b_log x_min x_max all_x_max show)
  /\
  Forall (fun t => Forall2 (guarded Linear a_lin b_lin) (t_x t) (t_y t))
         (ncpa_linear_traces i a_lin b_lin x_min x_max all_x_max show).
Proof.
  split.
  - unfold ncpa_log_traces.
    destruct (flt (ncpa_x_start a_log b_log x_min) x_max); [|constructor].
    constructor; [|apply ncpa_high_guarded].
    cbn [t_x t_y].
    eapply Forall2_impl; [|apply (ncpa_where_spec (uu_at Logarithmic a_log b_log))].
    intros x y. apply guarded_sample.
  - unfold ncpa_linear_traces.
    constructor; [|apply ncpa_high_guarded].
    cbn [t_x t_y].
    eapply Forall2_impl; [|apply (ncpa_where_spec (uu_at Linear a_lin b_lin))].
    intros x y. apply guarded_sample.
Qed.

(** ** Building the charts *)

Lemma get_ok (A : Type) (df : DataFrame) (c : column) (v : A) :
  has_column df c = true -> get df c v = Ok v.
Proof. unfold get. now intros ->. Qed.

Lemma get_inv (A : Type) (df : DataFrame) (c : column) (v w : A) :
  get df c v = Ok w -> w = v /\ has_column df c = true.
Proof.
  unfold get. destruct (has_column df c); [|discriminate].
  intros H. injection H as <-. now split.
Qed.

Lemma bind_ok (A B : Type) (m : result A) (k : A -> result B) (b : B) :
  bind m k = Ok b -> exists a, m = Ok a /\ k a = Ok b.
Proof. destruct m as [a|e]; cbn; [eauto|discriminate]. Qed.

Lemma mapM_in (A B : Type) (f : A -> result (list B)) :
  forall (l : list A) (r : list (list B)) (t : B),
    mapM f l = Ok r -> In t (concat r) ->
    exists x ts, In x l /\ f x = Ok ts /\ In t ts.
Proof.
  induction l as [|x l IH]; intros r t H Hin; cbn in H.
  - injection H as <-. contradiction.
  - apply bind_ok in H as (ts & Hx & H).
    apply bind_ok in H as (r' & Hl & H). injection H as <-.
    cbn in Hin. apply in_app_or in Hin as [Hin|Hin].
    + exists x, ts. repeat split; [now left|assumption|assumption].
    + destruct (IH _ _ Hl Hin) as (y & ts' & Hy & Hfy & Ht).
      exists y, ts'. repeat split; [now right|assumption|assumption].
Qed.

Lemma enumerate_in (df : DataFrame) (i : nat) (row : Row) :
  In (i, row) (enumerate df) -> nth_error (rows df) i = Some row.
Proof.
  unfold enumerate. generalize (rows df). intros l.
  assert (H : forall s, In (i, row) (combine (seq s (length l)) l) ->
                        (s <= i)%nat /\ nth_error l (i - s) = Some row).
  { induction l as [|r l IH]; intros s Hin; cbn in Hin; [contradiction|].
    destruct Hin as [Hin|Hin].
    - injection Hin as -> ->. rewrite Nat.sub_diag. split; [lia|reflexivity].
    - apply IH in Hin as [Hle Hn]. split; [lia|].
      replace (i - s)%nat with (S (i - S s)) by lia. exact Hn. }
  intros Hin. apply H in Hin as [_ Hn]. now rewrite Nat.sub_0_r in Hn.
Qed.

(** The traces of a row of the acquisition chart come from [uu_traces],
    with the bounds of the row. *)
Lemma graph_row_in (df : DataFrame) (gt : graph_type) (show : bool)
      (all_x_min all_x_max : float) (i : nat) (row : Row)
      (ts : list trace) (t : trace) :
  graph_row df gt show all_x_min all_x_max i row = Ok ts -> In t ts ->
  exists k a b,
    In t (uu_traces k i a b (x_min row) (x_max row)
                    all_x_min all_x_max show).
Proof.
  unfold graph_row. intros H Hin.
  apply bind_ok in H as (? & _ & H).
  apply bind_ok in H as (lo & Hlo & H). apply get_inv in Hlo as [-> _].
  apply bind_ok in H as (hi & Hhi & H). apply get_inv in Hhi as [-> _].
  apply bind_ok in H as (lp & Hlp & H).
  apply bind_ok in H as (np & Hnp & H). injection H as <-.
  apply in_app_or in Hin as [Hin|Hin].
  - destruct (shows_log gt); [|injection Hlp as <-; contradiction].
    apply bind_ok in Hlp as (? & _ & Hlp).
    apply bind_ok in Hlp as ([[a b]|] & _ & Hlp);
      apply bind_ok in Hlp as (? & _ & Hlp); injection Hlp as <-;
      [eauto|contradiction].
  - destruct (shows_linear gt); [|injection Hnp as <-; contradiction].
    apply bind_ok in Hnp as (? & _ & Hnp).
    apply bind_ok in Hnp as ([[a b]|] & _ & Hnp);
      apply bind_ok in Hnp as (? & _ & Hnp); injection Hnp as <-;
      [eauto|contradiction].
Qed.



Lemma flt_irrefl (x : float) : flt x x = false.
Proof. destruct x; cbn; try reflexivity. rbool. lra. Qed.


(** ** The sample tables *)

Lemma parse_sample_log :
  parse_log_equation (Text "y = 2 * ln(x) + 3")
  = Ok (Some (of_Q 2, of_Q 3)).
Proof.
  change (parse_log_equation ?c) with (parse_equation Logarithmic c).
  rewrite parse_equation_text.
  replace (Re.search _ _) with (Some [str "2"; str "3"])
    by (vm_compute; reflexivity).
  unfold group, py_float; cbn [nth pred].
  replace (PyFloat.parse (str "2")) with (Some 2%Q) by (vm_compute; reflexivity).
  replace (PyFloat.parse (str "3")) with (Some 3%Q) by (vm_compute; reflexivity).
  reflexivity.
Qed.

Lemma parse_sample_linear :
  parse_linear_equation (Text "y = 0.0013 * x + 54.4297")
  = Ok (Some (of_Q (13 # 10000), of_Q (544297 # 10000))).
Proof.
  change (parse_linear_equation ?c) with (parse_equation Linear c).
  rewrite parse_equation_text.
  replace (Re.search _ _) with (Some [str "0.0013"; str "54.4297"])
    by (vm_compute; reflexivity).
  unfold group, py_float; cbn [nth pred].
  replace (PyFloat.parse (str "0.0013")) with (Some (13 # 10000)%Q)
    by (vm_compute; reflexivity).
  replace (PyFloat.parse (str "54.4297")) with (Some (544297 # 10000)%Q)
    by (vm_compute; reflexivity).
  reflexivity.
Qed.

(** A row of a table with all the columns, for the log model alone. *)
Lemma graph_row_log_only (df : DataFrame) (show : bool)
      (all_x_min all_x_max : float) (i : nat) (row : Row) (a b : float) :
  columns df = all_columns ->
  parse_log_equation (log_eq row) = Ok (Some (a, b)) ->
  graph_row df LogOnly show all_x_min all_x_max i row
  = Ok (uu_traces Logarithmic i a b (x_min row) (x_max row)
                  all_x_min all_x_max show).
Proof.
  intros Hc Hp. unfold graph_row.
  rewrite !get_ok by (unfold has_column; rewrite Hc; reflexivity).
  cbn [bind shows_log shows_linear]. rewrite Hp. cbn [bind].
  now rewrite app_nil_r.
Qed.






(** ** A log model over a domain that starts at or below zero *)





Lemma nanmax_one (x : R) : Np.nanmax [Fin x] = Fin x.
Proof. reflexivity. Qed.

Lemma nanmin_one (x : R) : Np.nanmin [Fin x] = Fin x.
Proof. reflexivity. Qed.

Lemma of_Q_2 : of_Q 2 = Fin 2.
Proof. unfold of_Q, Q2R. cbn. f_equal. lra. Qed.

Lemma of_Q_3 : of_Q 3 = Fin 3.
Proof. unfold of_Q, Q2R. cbn. f_equal. lra. Qed.

(** The acquisition chart of [zero_min], log model, no extrapolation. *)
Lemma zero_min_chart :
  generate_graph zero_min LogOnly false (Fin 1.5) =
  Ok [ mkTrace 0 0 Logarithmic Observed
               (Np.linspace (Fin 0) (Fin 100) 300)
               (Np.log_curve (Fin 2) (Fin 3)
                             (Np.linspace (Fin 0) (Fin 100) 300)) ].
Proof.
  unfold generate_graph.
  rewrite !get_ok by reflexivity. cbn [bind]. cbv zeta.
  change (enumerate zero_min) with [(0%nat, sample_row "A" 0 100)].
  cbn [mapM fst snd].
  rewrite (fun x y => @graph_row_log_only zero_min false x y 0%nat
             (sample_row "A" 0 100) _ _ eq_refl parse_sample_log).
  cbn [bind concat app]. unfold uu_traces.
  cbn [sample_row x_min x_max curve]. now rewrite of_Q_2, of_Q_3.
Qed.

Lemma zero_min_ncpa_chart :
  exists f, generate_ncpa_graph zero_min LogOnly false (Fin 1.5) = Ok f.
Proof.
  unfold generate_ncpa_graph.
  rewrite !get_ok by reflexivity. cbn [bind]. cbv zeta.
  change (enumerate zero_min) with [(0%nat, sample_row "A" 0 100)].
  cbn [mapM fst snd]. unfold ncpa_row.
  rewrite !get_ok by reflexivity.
  cbn [bind shows_log shows_linear sample_row log_eq].
  rewrite parse_sample_log. cbn [bind]. eauto.
Qed.


(** ** Empty cells and absent columns *)

(** C4 at the table [empty_log_cell], whose only row has an empty
    logarithmic equation and a valid linear equation, with both models
    selected: [re.search] raises [TypeError] on the empty cell, the handler
    catches it, and no chart is produced (the session is unchanged), also
    not the linear series of the row.  With the linear model alone the cell
    is not read and the linear series is produced. *)
Theorem empty_log_cell_aborts :
  parse_log_equation (Number NaN) = Raise TypeError /\
  parse_linear_equation (Text "y = 0.0013 * x + 54.4297")
  = Ok (Some (of_Q (13 # 10000), of_Q (544297 # 10000))) /\
  on_generate initial_session empty_log_cell BothModels true (Fin 1.5)
  = (initial_session, [Exception TypeError]) /\
  on_generate initial_session empty_log_cell LogOnly true (Fin 1.5)
  = (initial_session, [Exception TypeError]) /\
  charts_shown initial_session = false /\
  exists rest,
    graph_row empty_log_cell LinearOnly true (Fin 150) (Fin 292534.5) 0
              (mkRow "A" (Number NaN) NaN (Fin 150) (Fin 195023)
                     (Text "y = 0.0013 * x + 54.4297") (Fin 0.6))
    = Ok (mkTrace 0 0 Linear Observed
                  (Np.linspace (Fin 150) (Fin 195023) 300)
                  (Np.linear_curve (of_Q (13 # 10000))
                                   (of_Q (544297 # 10000))
                                   (Np.linspace (Fin 150) (Fin 195023) 300))
          :: rest).
Proof.
  split; [reflexivity|]. split; [exact parse_sample_linear|].
  split; [reflexivity|]. split; [reflexivity|]. split; [reflexivity|].
  unfold graph_row. rewrite !get_ok by reflexivity.
  cbn [bind shows_log shows_linear lin_eq x_min x_max].
  rewrite parse_sample_linear. cbn [bind app]. unfold uu_traces.
  cbn [curve]. eauto.
Qed.

(** C8 at the table [no_linear_columns], which has the three required
    columns and the two columns of the log model, with the log model
    alone selected: the numeric coercion of the absent column 決定係数(線形)
    raises [KeyError], the handler catches it, and no chart is produced. *)
Theorem absent_optional_column_aborts :
  filter (fun c => negb (has_column no_linear_columns c)) required_cols = []
  /\
  on_generate initial_session no_linear_columns LogOnly true (Fin 1.5)
  = (initial_session, [Exception (KeyError R2Lin)]) /\
  charts_shown initial_session = false.
Proof.
  split; [reflexivity|]. split; reflexivity.
Qed.

(** ** Parse misses and missing required columns *)

(** A logarithmic equation that is a text without the pattern is a miss
    for the log model only: with both models selected the row still gives
    the series of its linear model. *)
Theorem log_miss_keeps_linear (df : DataFrame) (show : bool)
    (all_x_min all_x_max : float) (i : nat) (row : Row) (s : string)
    (a b : float) :
  columns df = all_columns ->
  log_eq row = Text s ->
  Re.search Re.log_pattern (str s) = None ->
  parse_linear_equation (lin_eq row) = Ok (Some (a, b)) ->
  graph_row df BothModels show all_x_min all_x_max i row
  = Ok (uu_traces Linear i a b (x_min row) (x_max row)
                  all_x_min all_x_max show).
Proof.
  intros Hc Hs Hn Hp. unfold graph_row.
  rewrite !get_ok by (unfold has_column; rewrite Hc; reflexivity).
  cbn [bind shows_log shows_linear]. rewrite Hs, Hp.
  unfold parse_log_equation, parse_with. rewrite Hn. reflexivity.
Qed.

Lemma log_miss_keeps_linear_witness :
  graph_row two_segments BothModels true (Fin 10) (Fin 300) 0
            (mkRow "A" (Text "no fit") NaN (Fin 10) (Fin 100)
                   (Text "y = 0.0013 * x + 54.4297") (Fin 0.6))
  = Ok (uu_traces Linear 0 (of_Q (13 # 10000)) (of_Q (544297 # 10000))
                  (Fin 10) (Fin 100) (Fin 10) (Fin 300) true).
Proof.
  apply (@log_miss_keeps_linear two_segments true (Fin 10) (Fin 300) 0%nat
           (mkRow "A" (Text "no fit") NaN (Fin 10) (Fin 100)
                  (Text "y = 0.0013 * x + 54.4297") (Fin 0.6))
           "no fit" _ _ eq_refl eq_refl).
  - vm_compute. reflexivity.
  - exact parse_sample_linear.
Defined.

(** When a required column is missing, the handler reports exactly the
    missing required columns and leaves the session as it was: no chart is
    generated. *)
Theorem missing_required_columns (st : session) (df : DataFrame)
    (gt : graph_type) (show : bool) (ratio : float) :
  filter (fun c => negb (has_column df c)) required_cols <> [] ->
  on_generate st df gt show ratio
  = (st, [MissingColumns
            (filter (fun c => negb (has_column df c)) required_cols)]).
Proof.
  intros H. unfold on_generate.
  destruct (filter (fun c => negb (has_column df c)) required_cols);
    [contradiction|reflexivity].
Qed.

Lemma missing_required_columns_witness :
  on_generate initial_session (mkDF [Brand; LogEq; XMin] []) LogOnly true
              (Fin 1.5)
  = (initial_session, [MissingColumns [XMax]]).
Proof.
  apply (@missing_required_columns initial_session
           (mkDF [Brand; LogEq; XMin] []) LogOnly true (Fin 1.5)).
  discriminate.
Defined.

(* ================================================================== *)
(** * Further properties of the code *)

(** ** The minimum of the cost metric on finite coefficients *)













(** ** The shape of the cost-metric series *)







(** ** The structure of the two charts *)

Lemma mapM_concat_in (A B : Type) (f : A -> result (list B)) :
  forall (l : list A) (r : list (list B)) (x : A) (ts : list B) (t : B),
    mapM f l = Ok r -> In x l -> f x = Ok ts -> In t ts ->
    In t (concat r).
Proof.
  induction l as [|y l IH]; intros r x ts t H Hx Hf Ht; [contradiction|].
  cbn in H. apply bind_ok in H as (ts' & Hy & H).
  apply bind_ok in H as (r' & Hl & H). injection H as <-.
  cbn. apply in_or_app. destruct Hx as [->|Hx].
  - left. congruence.
  - right. eapply IH; eauto.
Qed.

(** The traces of a row of the acquisition chart, by model. *)
Lemma graph_row_parts (df : DataFrame) (gt : graph_type) (show : bool)
      (all_x_min all_x_max : float) (i : nat) (row : Row)
      (ts : list trace) :
  graph_row df gt show all_x_min all_x_max i row = Ok ts ->
  exists lp np,
    ts = lp ++ np /\
    (lp = [] \/
     exists a b, lp = uu_traces Logarithmic i a b (x_min row) (x_max row)
                                all_x_min all_x_max show) /\
    (np = [] \/
     exists a b, np = uu_traces Linear i a b (x_min row) (x_max row)
                                all_x_min all_x_max show).
Proof.
  unfold graph_row. intros H.
  apply bind_ok in H as (? & _ & H).
  apply bind_ok in H as (lo & Hlo & H). apply get_inv in Hlo as [-> _].
  apply bind_ok in H as (hi & Hhi & H). apply get_inv in Hhi as [-> _].
  apply bind_ok in H as (lp & Hlp & H).
  apply bind_ok in H as (np & Hnp & H). injection H as <-.
  exists lp, np. split; [reflexivity|]. split.
  - destruct (shows_log gt); [|injection Hlp as <-; now left].
    apply bind_ok in Hlp as (? & _ & Hlp).
    apply bind_ok in Hlp as ([[a b]|] & _ & Hlp);
      apply bind_ok in Hlp as (? & _ & Hlp); injection Hlp as <-;
      [right; eauto|now left].
  - destruct (shows_linear gt); [|injection Hnp as <-; now left].
    apply bind_ok in Hnp as (? & _ & Hnp).
    apply bind_ok in Hnp as ([[a b]|] & _ & Hnp);
      apply bind_ok in Hnp as (? & _ & Hnp); injection Hnp as <-;
      [right; eauto|now left].
Qed.

(** The traces of a row of the cost chart, by model. *)
Lemma ncpa_row_parts (df : DataFrame) (gt : graph_type) (show : bool)
      (all_x_max : float) (i : nat) (row : Row) (ts : list trace) :
  ncpa_row df gt show all_x_max i row = Ok ts ->
  exists lp np,
    ts = lp ++ np /\
    (lp = [] \/
     exists a b, lp = ncpa_log_traces i a b (x_min row) (x_max row)
                                      all_x_max show) /\
    (np = [] \/
     exists a b, np = ncpa_linear_traces i a b (x_min row) (x_max row)
                                         all_x_max show).
Proof.
  unfold ncpa_row. intros H.
  apply bind_ok in H as (? & _ & H).
  apply bind_ok in H as (lo & Hlo & H). apply get_inv in Hlo as [-> _].
  apply bind_ok in H as (hi & Hhi & H). apply get_inv in Hhi as [-> _].
  apply bind_ok in H as (lp & Hlp & H).
  apply bind_ok in H as (np & Hnp & H). injection H as <-.
  exists lp, np. split; [reflexivity|]. split.
  - destruct (shows_log gt); [|injection Hlp as <-; now left].
    apply bind_ok in Hlp as (? & _ & Hlp).
    apply bind_ok in Hlp as ([[a b]|] & _ & Hlp);
      apply bind_ok in Hlp as (? & _ & Hlp); injection Hlp as <-;
      [right; eauto|now left].
  - destruct (shows_linear gt); [|injection Hnp as <-; now left].
    apply bind_ok in Hnp as (? & _ & Hnp).
    apply bind_ok in Hnp as ([[a b]|] & _ & Hnp);
      apply bind_ok in Hnp as (? & _ & Hnp); injection Hnp as <-;
      [right; eauto|now left].
Qed.

(** What every trace of [uu_traces] carries. *)
Lemma uu_traces_shape (k : kind) (i : nat) (a b x_min x_max : float)
      (all_x_min all_x_max : float) (show : bool) :
  Forall (fun t =>
            t_segment t = i /\ t_color t = (i mod palette_size)%nat /\
            t_kind t = k /\
            (t_region t <> Observed -> show = true) /\
            (t_region t = ExtrapolatedLow ->
             flt all_x_min x_min = true /\
             t_x t = Np.linspace all_x_min x_min 100))
         (uu_traces k i a b x_min x_max all_x_min all_x_max show).
Proof.
  unfold uu_traces. constructor.
  - cbn. repeat split; try discriminate; try contradiction; congruence.
  - destruct show; [|constructor]. apply Forall_app. split.
    + destruct (flt all_x_min x_min); repeat constructor.
    + destruct (fgt all_x_max x_max); repeat constructor; discriminate.
Qed.

(** What every trace of the cost chart of one row carries. *)
Lemma ncpa_traces_shape (i : nat) (a b x_min x_max all_x_max : float)
      (show : bool) :
  Forall (fun t =>
            t_segment t = i /\ t_color t = (i mod palette_size)%nat /\
            (t_region t <> Observed -> show = true) /\
            t_region t <> ExtrapolatedLow)
         (ncpa_log_traces i a b x_min x_max all_x_max show ++
          ncpa_linear_traces i a b x_min x_max all_x_max show).
Proof.
  assert (Hh : forall k, Forall (fun t =>
            t_segment t = i /\ t_color t = (i mod palette_size)%nat /\
            (t_region t <> Observed -> show = true) /\
            t_region t <> ExtrapolatedLow)
            (ncpa_high k i a b x_max all_x_max show)).
  { intros k. unfold ncpa_high. destruct show; cbn [andb]; [|constructor].
    destruct (fgt all_x_max x_max); repeat constructor; discriminate. }
  apply Forall_app. split.
  - unfold ncpa_log_traces.
    destruct (flt (ncpa_x_start a b x_min) x_max); [|constructor].
    constructor; [|apply Hh].
    cbn. repeat split; try discriminate. congruence.
  - unfold ncpa_linear_traces. constructor; [|apply Hh].
    cbn. repeat split; try discriminate. congruence.
Qed.

Lemma enumerate_bound (df : DataFrame) (i : nat) (row : Row) :
  In (i, row) (enumerate df) -> (i < length (rows df))%nat.
Proof.
  intros H. apply enumerate_in in H.
  apply nth_error_Some. congruence.
Qed.

Lemma palette_lookup (i : nat) :
  exists c, nth_error colors (i mod palette_size) = Some c.
Proof.
  assert (H : (i mod palette_size < length colors)%nat)
    by (apply Nat.mod_upper_bound; discriminate).
  destruct (nth_error colors (i mod palette_size)) eqn:E; [eauto|].
  apply nth_error_None in E. lia.
Qed.

(** In both charts every trace belongs to a row of the table, and its
    colour is the entry of the palette at the row index modulo 15, which
    always exists; with extrapolation hidden every trace is an observed
    series; and the cost chart never holds a low-side extrapolation. *)
Theorem chart_traces_wellformed (df : DataFrame) (gt : graph_type)
    (show : bool) (ratio : float) :
  (forall f, generate_graph df gt show ratio = Ok f ->
     Forall (fun t =>
               (t_segment t < length (rows df))%nat /\
               t_color t = (t_segment t mod 15)%nat /\
               (exists c, nth_error colors (t_color t) = Some c) /\
               (show = false -> t_region t = Observed)) f)
  /\
  (forall f, generate_ncpa_graph df gt show ratio = Ok f ->
     Forall (fun t =>
               (t_segment t < length (rows df))%nat /\
               t_color t = (t_segment t mod 15)%nat /\
               (exists c, nth_error colors (t_color t) = Some c) /\
               (show = false -> t_region t = Observed) /\
               t_region t <> ExtrapolatedLow) f).
Proof.
  split; intros f H; apply Forall_forall; intros t Hin.
  - unfold generate_graph in H.
    apply bind_ok in H as (xmins & _ & H).
    apply bind_ok in H as (xmaxs & _ & H).
    apply bind_ok in H as (per_row & Hrows & H). injection H as <-.
    eapply mapM_in in Hin; [|exact Hrows].
    destruct Hin as ([i row] & ts & Hir & Hts & Ht). cbn [fst snd] in Hts.
    eapply graph_row_in in Ht; [|exact Hts].
    destruct Ht as (k & a & b & Hu).
    pose proof (uu_traces_shape k i a b (x_min row) (x_max row)
                  (Np.nanmin xmins) (fmul (Np.nanmax xmaxs) ratio) show)
      as Hs.
    rewrite Forall_forall in Hs.
    destruct (Hs t Hu) as (Hi & Hc & _ & Hr & _).
    rewrite Hc, Hi. repeat split.
    + eapply enumerate_bound; eauto.
    + apply palette_lookup.
    + intros ->. destruct (t_region t); try reflexivity;
        (assert (false = true) by (apply Hr; discriminate); discriminate).
  - unfold generate_ncpa_graph in H.
    apply bind_ok in H as (xmaxs & _ & H).
    apply bind_ok in H as (per_row & Hrows & H). injection H as <-.
    eapply mapM_in in Hin; [|exact Hrows].
    destruct Hin as ([i row] & ts & Hir & Hts & Ht). cbn [fst snd] in Hts.
    apply ncpa_row_parts in Hts as (lp & np & -> & Hlp & Hnp).
    assert (Hsh : t_segment t = i /\ t_color t = (i mod palette_size)%nat /\
                  (t_region t <> Observed -> show = true) /\
                  t_region t <> ExtrapolatedLow).
    { apply in_app_or in Ht as [Ht|Ht].
      - destruct Hlp as [->|(a & b & ->)]; [contradiction|].
        pose proof (ncpa_traces_shape i a b (x_min row) (x_max row)
                      (fmul (Np.nanmax xmaxs) ratio) show) as Hs.
        rewrite Forall_forall in Hs. apply Hs. apply in_or_app. now left.
      - destruct Hnp as [->|(a & b & ->)]; [contradiction|].
        pose proof (ncpa_traces_shape i a b (x_min row) (x_max row)
                      (fmul (Np.nanmax xmaxs) ratio) show) as Hs.
        rewrite Forall_forall in Hs. apply Hs. apply in_or_app. now right. }
    destruct Hsh as (Hi & Hc & Hr & Hlow).
    rewrite Hc, Hi. repeat split.
    + eapply enumerate_bound; eauto.
    + apply palette_lookup.
    + intros ->. destruct (t_region t); try reflexivity;
        (assert (false = true) by (apply Hr; discriminate); discriminate).
    + exact Hlow.
Qed.

(** ** Which segments get an extrapolation in the acquisition chart *)

Lemma uu_traces_low (k : kind) (i : nat) (a b x_min x_max : float)
      (all_x_min all_x_max : float) (show : bool) (t : trace) :
  In t (uu_traces k i a b x_min x_max all_x_min all_x_max show) ->
  t_region t = ExtrapolatedLow ->
  t_segment t = i /\ flt all_x_min x_min = true /\
  t_x t = Np.linspace all_x_min x_min 100.
Proof.
  intros Hin Hr.
  pose proof (uu_traces_shape k i a b x_min x_max all_x_min all_x_max show)
    as Hs.
  rewrite Forall_forall in Hs. destruct (Hs t Hin) as (Hi & _ & _ & _ & Hl).
  destruct (Hl Hr). now repeat split.
Qed.

Lemma two_segments_ok (show : bool) (ratio : float) :
  exists traces, generate_graph two_segments LogOnly show ratio = Ok traces.
Proof.
  unfold generate_graph.
  rewrite !get_ok by reflexivity. cbn [bind]. cbv zeta.
  change (enumerate two_segments)
    with [(0%nat, sample_row "A" 10 100); (1%nat, sample_row "B" 10 200)].
  cbn [mapM fst snd].
  rewrite (fun x y => @graph_row_log_only two_segments show x y 0%nat
             (sample_row "A" 10 100) _ _ eq_refl parse_sample_log).
  rewrite (fun x y => @graph_row_log_only two_segments show x y 1%nat
             (sample_row "B" 10 200) _ _ eq_refl parse_sample_log).
  cbn [bind]. eauto.
Qed.

(** In the acquisition chart every low-side extrapolation belongs to a
    segment whose [x_min] is strictly above the smallest [x_min] of the
    table and is sampled from that smallest value up to the segment's
    [x_min]; a segment whose [x_min] is the smallest one gets none,
    whatever the extrapolation ratio. *)
Theorem extrapolated_low_segments (df : DataFrame) (gt : graph_type)
    (show : bool) (ratio : float) (traces : list trace) :
  generate_graph df gt show ratio = Ok traces ->
  let smallest := Np.nanmin (map x_min (rows df)) in
  Forall (fun t =>
            t_region t = ExtrapolatedLow ->
            exists row,
              nth_error (rows df) (t_segment t) = Some row /\
              flt smallest (x_min row) = true /\
              t_x t = Np.linspace smallest (x_min row) 100)
         traces
  /\
  (forall i row,
      nth_error (rows df) i = Some row -> x_min row = smallest ->
      Forall (fun t => t_segment t = i -> t_region t <> ExtrapolatedLow)
             traces).
Proof.
  intros H smallest.
  assert (Hall : Forall (fun t =>
            t_region t = ExtrapolatedLow ->
            exists row,
              nth_error (rows df) (t_segment t) = Some row /\
              flt smallest (x_min row) = true /\
              t_x t = Np.linspace smallest (x_min row) 100) traces).
  { unfold generate_graph in H.
    apply bind_ok in H as (xmins & Hx & H). apply get_inv in Hx as [-> _].
    apply bind_ok in H as (xmaxs & _ & H).
    apply bind_ok in H as (per_row & Hrows & H). injection H as <-.
    fold smallest in Hrows.
    apply Forall_forall. intros t Hin Hr.
    eapply mapM_in in Hin; [|exact Hrows].
    destruct Hin as ([i row] & ts & Hir & Hts & Ht). cbn [fst snd] in Hts.
    eapply graph_row_in in Ht; [|exact Hts].
    destruct Ht as (k & a & b & Hu).
    eapply uu_traces_low in Hu; [|exact Hr].
    destruct Hu as (Hi & Hlt & Hxs).
    exists row. rewrite Hi. split; [now apply enumerate_in|]. now split. }
  split; [exact Hall|].
  intros i row Hrow Hmin. rewrite Forall_forall in *.
  intros t Hin Hi Hr.
  destruct (Hall t Hin Hr) as (row' & Hrow' & Hlt & _).
  rewrite Hi, Hrow in Hrow'. injection Hrow' as <-.
  rewrite Hmin, flt_irrefl in Hlt. discriminate.
Qed.

Lemma extrapolated_low_segments_witness :
  exists traces,
    generate_graph two_segments LogOnly true (Fin 1.5) = Ok traces /\
    let smallest := Np.nanmin (map x_min (rows two_segments)) in
    Forall (fun t =>
              t_region t = ExtrapolatedLow ->
              exists row,
                nth_error (rows two_segments) (t_segment t) = Some row /\
                flt smallest (x_min row) = true /\
                t_x t = Np.linspace smallest (x_min row) 100)
           traces
    /\
    (forall i row,
        nth_error (rows two_segments) i = Some row ->
        x_min row = smallest ->
        Forall (fun t => t_segment t = i -> t_region t <> ExtrapolatedLow)
               traces).
Proof.
  destruct (two_segments_ok true (Fin 1.5)) as (traces & H).
  exists traces. split; [exact H|].
  exact (@extrapolated_low_segments two_segments LogOnly true (Fin 1.5)
           traces H).
Defined.

(** [Series.max()] over finite values: a finite upper bound of all of
    them. *)
Lemma nanmax_fold_bound (l : list float) :
  Forall (fun x => exists r, x = Fin r) l ->
  forall c,
  exists m,
    fold_left (fun acc x =>
                 if is_nan x then acc
                 else if is_nan acc then x
                 else if flt acc x then x else acc) l (Fin c) = Fin m /\
    c <= m /\ Forall (fun x => fle x (Fin m) = true) l.
Proof.
  induction 1 as [|x l (r & ->) Hl IH]; intros c; cbn [fold_left].
  - exists c. repeat split; [lra|constructor].
  - cbn [is_nan flt].
    destruct (Rltb c r) eqn:Hc; rbool.
    + destruct (IH r) as (m & Hm & Hle & Hall).
      exists m. repeat split; [assumption|lra|].
      constructor; [cbn; rbool; lra|assumption].
    + destruct (IH c) as (m & Hm & Hle & Hall).
      exists m. repeat split; [assumption|lra|].
      constructor; [cbn; rbool; lra|assumption].
Qed.

Lemma nanmax_bound (l : list float) (x : float) :
  Forall (fun x => exists r, x = Fin r) l -> In x l ->
  exists m, Np.nanmax l = Fin m /\
            Forall (fun x => fle x (Fin m) = true) l.
Proof.
  intros Hl Hin. destruct l as [|y l]; [contradiction|].
  inversion Hl as [|? ? (r & ->) Hl']; subst.
  unfold Np.nanmax. cbn [fold_left is_nan].
  destruct (nanmax_fold_bound Hl' r) as (m & Hm & Hle & Hall).
  exists m. split; [exact Hm|].
  constructor; [cbn; rbool; lra|assumption].
Qed.

Lemma uu_traces_has_high (k : kind) (i : nat) (a b x_min x_max : float)
      (all_x_min all_x_max : float) :
  fgt all_x_max x_max = true ->
  exists u,
    In u (uu_traces k i a b x_min x_max all_x_min all_x_max true) /\
    t_segment u = i /\ t_kind u = k /\ t_region u = ExtrapolatedHigh /\
    t_x u = Np.linspace x_max all_x_max 100.
Proof.
  intros H. unfold uu_traces. rewrite H.
  eexists. split.
  - right. apply in_or_app. right. left. reflexivity.
  - now repeat split.
Qed.

(** With extrapolation shown, a ratio above 1 and positive finite observed
    maxima, the global maximum exceeds every segment's [x_max]: in the
    acquisition chart every plotted series has a high-side extrapolation
    of the same segment and model, sampled from the segment's [x_max]. *)
Theorem ratio_above_one_extends_all (df : DataFrame) (gt : graph_type)
    (r : R) (traces : list trace) :
  1 < r ->
  Forall (fun row => exists hi, x_max row = Fin hi /\ 0 < hi) (rows df) ->
  generate_graph df gt true (Fin r) = Ok traces ->
  Forall (fun t =>
            exists u row,
              In u traces /\ t_segment u = t_segment t /\
              t_kind u = t_kind t /\ t_region u = ExtrapolatedHigh /\
              nth_error (rows df) (t_segment t) = Some row /\
              hd NaN (t_x u) = x_max row)
         traces.
Proof.
  intros Hr Hpos H.
  unfold generate_graph in H.
  apply bind_ok in H as (xmins & _ & H).
  apply bind_ok in H as (xmaxs & Hx & H). apply get_inv in Hx as [-> _].
  apply bind_ok in H as (per_row & Hrows & H). injection H as <-.
  apply Forall_forall. intros t Hin.
  pose proof Hin as Hin'.
  eapply mapM_in in Hin'; [|exact Hrows].
  destruct Hin' as ([i row] & ts & Hir & Hts & Ht). cbn [fst snd] in Hts.
  pose proof (enumerate_in _ _ _ Hir) as Hnth.
  assert (Hrow : In row (rows df)) by (eapply nth_error_In; eauto).
  rewrite Forall_forall in Hpos. destruct (Hpos row Hrow) as (hi & Hhi & Hhi0).
  assert (Hfin : Forall (fun x => exists r, x = Fin r) (map x_max (rows df))).
  { apply Forall_forall. intros x Hx. apply in_map_iff in Hx as (rw & <- & Hrw).
    destruct (Hpos rw Hrw) as (h & -> & _). eauto. }
  destruct (@nanmax_bound (map x_max (rows df)) (x_max row) Hfin)
    as (m & Hm & Hall); [now apply in_map|].
  rewrite Forall_forall in Hall.
  assert (Hle : fle (x_max row) (Fin m) = true)
    by (apply Hall; now apply in_map).
  rewrite Hhi in Hle. cbn in Hle. rbool.
  rewrite Hm in Hts, Hrows. cbn [fmul] in Hts, Hrows.
  assert (Hgt : fgt (Fin (m * r)) (x_max row) = true).
  { rewrite Hhi. cbn. rbool. nra. }
  pose proof (graph_row_parts _ _ _ _ _ _ _ Hts) as (lp & np & -> & Hlp & Hnp).
  assert (Hfind : forall k a b part,
            part = uu_traces k i a b (x_min row) (x_max row)
                             (Np.nanmin xmins) (Fin (m * r)) true ->
            In t part -> incl part (lp ++ np) ->
            exists u row0,
              In u (concat per_row) /\ t_segment u = t_segment t /\
              t_kind u = t_kind t /\ t_region u = ExtrapolatedHigh /\
              nth_error (rows df) (t_segment t) = Some row0 /\
              hd NaN (t_x u) = x_max row0).
  { intros k a b part -> Htp Hincl.
    pose proof (uu_traces_shape k i a b (x_min row) (x_max row)
                  (Np.nanmin xmins) (Fin (m * r)) true) as Hs.
    rewrite Forall_forall in Hs. destruct (Hs t Htp) as (Hi & _ & Hk & _).
    destruct (uu_traces_has_high k i a b (x_min row) (x_max row)
                (Np.nanmin xmins) (Fin (m * r)) Hgt)
      as (u & Hu & Hui & Huk & Hur & Hux).
    exists u, row. repeat split.
    - eapply mapM_concat_in; [exact Hrows|exact Hir|exact Hts|].
      now apply Hincl.
    - congruence.
    - congruence.
    - assumption.
    - now rewrite Hi.
    - rewrite Hux, Hhi. apply linspace_first. lia. }
  apply in_app_or in Ht as [Ht|Ht].
  - destruct Hlp as [->|(a & b & Hlp)]; [contradiction|].
    eapply Hfind; [exact Hlp|exact Ht|]. apply incl_appl, incl_refl.
  - destruct Hnp as [->|(a & b & Hnp)]; [contradiction|].
    eapply Hfind; [exact Hnp|exact Ht|]. apply incl_appr, incl_refl.
Qed.

Lemma ratio_above_one_extends_all_witness :
  exists traces,
    generate_graph two_segments LogOnly true (Fin 1.5) = Ok traces /\
    Forall (fun t =>
              exists u row,
                In u traces /\ t_segment u = t_segment t /\
                t_kind u = t_kind t /\ t_region u = ExtrapolatedHigh /\
                nth_error (rows two_segments) (t_segment t) = Some row /\
                hd NaN (t_x u) = x_max row)
           traces.
Proof.
  destruct (two_segments_ok true (Fin 1.5)) as (traces & H).
  exists traces. split; [exact H|].
  apply (@ratio_above_one_extends_all two_segments LogOnly 1.5 traces).
  - lra.
  - repeat constructor; eexists; (split; [reflexivity|lra]).
  - exact H.
Defined.

(** ** Continuity of the drawn curve *)

Lemma hd_map (A B : Type) (f : A -> B) (d : A) (l : list A) :
  l <> [] -> hd (f d) (map f l) = f (hd d l).
Proof. destruct l; [contradiction|reflexivity]. Qed.

Lemma last_map (A B : Type) (f : A -> B) (d : A) (l : list A) :
  last (map f l) (f d) = f (last l d).
Proof.
  induction l as [|x l IH]; [reflexivity|].
  destruct l as [|y l]; [reflexivity|]. exact IH.
Qed.

Lemma linspace_nonempty (lo hi : R) (m : nat) :
  (0 < m)%nat -> Np.linspace (Fin lo) (Fin hi) (S m) <> [].
Proof.
  intros Hm H. pose proof (linspace_length lo hi Hm) as Hl.
  rewrite H in Hl. discriminate.
Qed.

(** With finite bounds [gl < lo] and [hi < gh], the three series of a
    segment and model in the acquisition chart join: the low-side
    extrapolation ends at the point where the observed series starts
    ([x_min], with the same y), and the high-side one starts at the point
    where the observed series ends ([x_max], with the same y). *)
Theorem extrapolations_join_observed (k : kind) (i : nat) (a b : float)
    (gl lo hi gh : R) :
  gl < lo -> hi < gh ->
  exists obs low high,
    uu_traces k i a b (Fin lo) (Fin hi) (Fin gl) (Fin gh) true
    = [obs; low; high] /\
    t_region obs = Observed /\ t_region low = ExtrapolatedLow /\
    t_region high = ExtrapolatedHigh /\
    last (t_x low) NaN = Fin lo /\ hd NaN (t_x obs) = Fin lo /\
    last (t_y low) (uu_at k a b NaN) = hd (uu_at k a b NaN) (t_y obs) /\
    last (t_x obs) NaN = Fin hi /\ hd NaN (t_x high) = Fin hi /\
    last (t_y obs) (uu_at k a b NaN) = hd (uu_at k a b NaN) (t_y high).
Proof.
  intros Hl Hh. unfold uu_traces. cbn [flt fgt].
  assert (H1 : Rltb gl lo = true) by now rbool.
  assert (H2 : Rltb hi gh = true) by now rbool.
  rewrite H1, H2. cbn [app].
  eexists _, _, _. split; [reflexivity|]. cbn [t_region t_x t_y].
  assert (H299 : (0 < 299)%nat) by lia.
  assert (H99 : (0 < 99)%nat) by lia.
  rewrite !curve_map.
  rewrite !last_map, !hd_map by now apply linspace_nonempty.
  rewrite !linspace_first, !linspace_last by assumption.
  now repeat split.
Qed.

Lemma extrapolations_join_observed_witness :
  exists obs low high,
    uu_traces Logarithmic 0 (Fin 2) (Fin 3) (Fin 150) (Fin 1000)
              (Fin 100) (Fin 1500) true
    = [obs; low; high] /\
    t_region obs = Observed /\ t_region low = ExtrapolatedLow /\
    t_region high = ExtrapolatedHigh /\
    last (t_x low) NaN = Fin 150 /\ hd NaN (t_x obs) = Fin 150 /\
    last (t_y low) (uu_at Logarithmic (Fin 2) (Fin 3) NaN)
    = hd (uu_at Logarithmic (Fin 2) (Fin 3) NaN) (t_y obs) /\
    last (t_x obs) NaN = Fin 1000 /\ hd NaN (t_x high) = Fin 1000 /\
    last (t_y obs) (uu_at Logarithmic (Fin 2) (Fin 3) NaN)
    = hd (uu_at Logarithmic (Fin 2) (Fin 3) NaN) (t_y high).
Proof.
  apply (@extrapolations_join_observed Logarithmic 0%nat (Fin 2) (Fin 3)
           100 150 1000 1500); lra.
Defined.

(** ** The cost chart against the acquisition chart *)

Lemma ncpa_high_in_uu (k : kind) (i : nat) (a b x_min x_max : float)
      (all_x_min all_x_max : float) (show : bool) (t : trace) :
  In t (ncpa_high k i a b x_max all_x_max show) ->
  exists u, In u (uu_traces k i a b x_min x_max all_x_min all_x_max show)
            /\ same_line t u.
Proof.
  unfold ncpa_high. destruct show; cbn [andb]; [|contradiction].
  destruct (fgt all_x_max x_max) eqn:Hg; [|contradiction].
  intros [<-|[]].
  destruct (uu_traces_has_high k i a b x_min x_max all_x_min all_x_max Hg)
    as (u & Hu & Hi & Hk & Hr & _).
  exists u. split; [exact Hu|]. unfold same_line. cbn. now rewrite Hi, Hk, Hr.
Qed.

Lemma uu_traces_has_observed (k : kind) (i : nat) (a b x_min x_max : float)
      (all_x_min all_x_max : float) (show : bool) :
  exists u, In u (uu_traces k i a b x_min x_max all_x_min all_x_max show)
            /\ t_segment u = i /\ t_kind u = k /\ t_region u = Observed.
Proof.
  unfold uu_traces. eexists. split; [left; reflexivity|]. now repeat split.
Qed.

Lemma ncpa_log_in_uu (i : nat) (a b x_min x_max : float)
      (all_x_min all_x_max : float) (show : bool) (t : trace) :
  In t (ncpa_log_traces i a b x_min x_max all_x_max show) ->
  exists u,
    In u (uu_traces Logarithmic i a b x_min x_max all_x_min all_x_max show)
    /\ same_line t u.
Proof.
  unfold ncpa_log_traces.
  destruct (flt (ncpa_x_start a b x_min) x_max); [|contradiction].
  intros [<-|Hin]; [|now apply ncpa_high_in_uu].
  destruct (uu_traces_has_observed Logarithmic i a b x_min x_max
              all_x_min all_x_max show) as (u & Hu & Hi & Hk & Hr).
  exists u. split; [exact Hu|]. unfold same_line. cbn. now rewrite Hi, Hk, Hr.
Qed.

Lemma ncpa_linear_in_uu (i : nat) (a b x_min x_max : float)
      (all_x_min all_x_max : float) (show : bool) (t : trace) :
  In t (ncpa_linear_traces i a b x_min x_max all_x_max show) ->
  exists u,
    In u (uu_traces Linear i a b x_min x_max all_x_min all_x_max show)
    /\ same_line t u.
Proof.
  unfold ncpa_linear_traces.
  intros [<-|Hin]; [|now apply ncpa_high_in_uu].
  destruct (uu_traces_has_observed Linear i a b x_min x_max
              all_x_min all_x_max show) as (u & Hu & Hi & Hk & Hr).
  exists u. split; [exact Hu|]. unfold same_line. cbn. now rewrite Hi, Hk, Hr.
Qed.

Lemma Ok_inj (A : Type) (x y : A) : Ok x = Ok y -> x = y.
Proof. now intros [= ->]. Qed.

(** A row gives the cost chart no line that it does not give the
    acquisition chart. *)
Lemma ncpa_row_in_graph_row (df : DataFrame) (gt : graph_type) (show : bool)
      (all_x_min all_x_max : float) (i : nat) (row : Row)
      (ts ts' : list trace) (t : trace) :
  graph_row df gt show all_x_min all_x_max i row = Ok ts ->
  ncpa_row df gt show all_x_max i row = Ok ts' ->
  In t ts' -> exists u, In u ts /\ same_line t u.
Proof.
  unfold graph_row, ncpa_row, get.
  destruct (has_column df Brand); [|discriminate].
  destruct (has_column df XMin); [|discriminate].
  destruct (has_column df XMax); [|discriminate].
  cbn [bind].
  destruct (shows_log gt), (shows_linear gt);
    destruct (has_column df LogEq), (has_column df R2Log),
             (has_column df LinEq), (has_column df R2Lin);
    cbn [bind]; try discriminate;
    try (destruct (parse_log_equation (log_eq row)) as [[[a b]|]|];
         cbn [bind]; try discriminate);
    try (destruct (parse_linear_equation (lin_eq row)) as [[[a' b']|]|];
         cbn [bind]; try discriminate);
    intros H1 H2 Hin; apply Ok_inj in H1, H2; subst ts ts';
    try (apply in_app_or in Hin as [Hin|Hin]); try contradiction;
    first
      [ eapply ncpa_log_in_uu with (all_x_min := all_x_min) in Hin
      | eapply ncpa_linear_in_uu with (all_x_min := all_x_min) in Hin ];
    destruct Hin as (u & Hu & Hs);
    exists u; (split; [first [exact Hu|apply in_or_app; auto]|exact Hs]).
Qed.

(** Under the same settings, every line of the cost chart (a segment, a
    model and a sub-range) is also a line of the acquisition chart: the
    cost chart can only leave lines out. *)
Theorem cost_chart_lines_in_acquisition_chart (df : DataFrame)
    (gt : graph_type) (show : bool) (ratio : float) (f g : list trace) :
  generate_graph df gt show ratio = Ok f ->
  generate_ncpa_graph df gt show ratio = Ok g ->
  Forall (fun t => exists u, In u f /\ same_line t u) g.
Proof.
  intros Hf Hg. unfold generate_graph in Hf. unfold generate_ncpa_graph in Hg.
  apply bind_ok in Hf as (xmins & _ & Hf).
  apply bind_ok in Hf as (xmaxs & Hx & Hf). apply get_inv in Hx as [-> _].
  apply bind_ok in Hf as (pf & Hpf & Hf). injection Hf as <-.
  apply bind_ok in Hg as (xmaxs' & Hx' & Hg). apply get_inv in Hx' as [-> _].
  apply bind_ok in Hg as (pg & Hpg & Hg). injection Hg as <-.
  apply Forall_forall. intros t Hin.
  eapply mapM_in in Hin; [|exact Hpg].
  destruct Hin as ([i row] & ts' & Hir & Hts' & Ht). cbn [fst snd] in Hts'.
  destruct (graph_row df gt show (Np.nanmin xmins)
              (fmul (Np.nanmax (map x_max (rows df))) ratio) i row)
    as [ts|e] eqn:Hts.
  - eapply ncpa_row_in_graph_row in Ht; [|exact Hts|exact Hts'].
    destruct Ht as (u & Hu & Hs).
    exists u. split; [|exact Hs].
    eapply mapM_concat_in; [exact Hpf|exact Hir|exact Hts|exact Hu].
  - exfalso. clear - Hpf Hir Hts.
    revert pf Hpf. generalize (enumerate df) Hir. intros l.
    induction l as [|y l IH]; intros Hin pf Hpf; [contradiction|].
    cbn in Hpf. apply bind_ok in Hpf as (ts0 & Hy & Hpf).
    apply bind_ok in Hpf as (r' & Hl & _).
    destruct Hin as [->|Hin]; [cbn [fst snd] in Hy; congruence|eauto].
Qed.

Lemma cost_chart_lines_in_acquisition_chart_witness :
  exists f g,
    generate_graph zero_min LogOnly false (Fin 1.5) = Ok f /\
    generate_ncpa_graph zero_min LogOnly false (Fin 1.5) = Ok g /\
    Forall (fun t => exists u, In u f /\ same_line t u) g.
Proof.
  destruct zero_min_ncpa_chart as (g & Hg).
  eexists _, g. split; [exact zero_min_chart|]. split; [exact Hg|].
  exact (@cost_chart_lines_in_acquisition_chart zero_min LogOnly false
           (Fin 1.5) _ g zero_min_chart Hg).
Defined.

(** ** The handler stores both charts or none *)

(** A row raises in the cost chart exactly what it raises in the
    acquisition chart. *)
Lemma row_raises_alike (df : DataFrame) (gt : graph_type) (show : bool)
      (all_x_min all_x_max all_x_max' : float) (i : nat) (row : Row)
      (e : exn) :
  graph_row df gt show all_x_min all_x_max i row = Raise e <->
  ncpa_row df gt show all_x_max' i row = Raise e.
Proof.
  unfold graph_row, ncpa_row, get.
  destruct (has_column df Brand); [|reflexivity].
  destruct (has_column df XMin); [|reflexivity].
  destruct (has_column df XMax); [|reflexivity].
  cbn [bind].
  destruct (shows_log gt), (shows_linear gt);
    destruct (has_column df LogEq), (has_column df R2Log),
             (has_column df LinEq), (has_column df R2Lin);
    cbn [bind]; try reflexivity;
    try (destruct (parse_log_equation (log_eq row)) as [[[a b]|]|];
         cbn [bind]; try reflexivity);
    try (destruct (parse_linear_equation (lin_eq row)) as [[[a' b']|]|];
         cbn [bind]; try reflexivity);
    split; discriminate.
Qed.

Lemma mapM_raises_alike (A B : Type) (f g : A -> result (list B)) :
  (forall x e, f x = Raise e <-> g x = Raise e) ->
  forall (l : list A) (e : exn), mapM f l = Raise e <-> mapM g l = Raise e.
Proof.
  intros H l. induction l as [|x l IH]; intros e; cbn [mapM].
  - split; discriminate.
  - pose proof (H x) as Hx.
    destruct (f x) as [b|e1] eqn:Ef, (g x) as [b'|e2] eqn:Eg; cbn [bind].
    + pose proof IH as IH'.
      destruct (mapM f l) as [r|e1], (mapM g l) as [r'|e2]; cbn [bind].
      * split; discriminate.
      * pose proof (proj2 (IH' e2) eq_refl). discriminate.
      * pose proof (proj1 (IH' e1) eq_refl). discriminate.
      * apply IH'.
    + pose proof (proj2 (Hx e2) eq_refl). discriminate.
    + pose proof (proj1 (Hx e1) eq_refl). discriminate.
    + pose proof (proj1 (Hx e1) eq_refl) as He. injection He as ->.
      reflexivity.
Qed.

Lemma bind_ok_raises (A B : Type) (m : result A) (k : A -> B) (e : exn) :
  bind m (fun x => Ok (k x)) = Raise e <-> m = Raise e.
Proof. destruct m; cbn; split; congruence. Qed.

Lemma charts_raise_alike (df : DataFrame) (gt : graph_type) (show : bool)
      (ratio : float) (e : exn) :
  has_column df XMin = true -> has_column df XMax = true ->
  (generate_graph df gt show ratio = Raise e <->
   generate_ncpa_graph df gt show ratio = Raise e).
Proof.
  intros H1 H2. unfold generate_graph, generate_ncpa_graph.
  rewrite !get_ok by assumption. cbn [bind]. cbv zeta.
  rewrite !bind_ok_raises.
  apply mapM_raises_alike. intros x e'. apply row_raises_alike.
Qed.

Lemma required_present (df : DataFrame) :
  filter (fun c => negb (has_column df c)) required_cols = [] ->
  has_column df Brand = true /\ has_column df XMin = true /\
  has_column df XMax = true.
Proof.
  unfold required_cols. cbn [filter].
  destruct (has_column df Brand), (has_column df XMin),
    (has_column df XMax); cbn; intros H; try discriminate. now repeat split.
Qed.

(** The handler is all or nothing.  Either both charts are built and
    stored together, with no message, the flag set and the number of rows
    recorded; or exactly one message is shown and the session is left
    exactly as it was: no run stores the acquisition chart without the cost
    chart.  Hence charts that are on display stay on display after any
    run. *)
Theorem on_generate_all_or_nothing (st : session) (df : DataFrame)
    (gt : graph_type) (show : bool) (ratio : float) :
  ((exists f_uu f_ncpa,
       generate_graph df gt show ratio = Ok f_uu /\
       generate_ncpa_graph df gt show ratio = Ok f_ncpa /\
       on_generate st df gt show ratio
       = (mkSession (Some f_uu) (Some f_ncpa) true (length (rows df)), []))
   \/
   (exists m, on_generate st df gt show ratio = (st, [m])))
  /\
  (charts_shown st = true ->
   charts_shown (fst (on_generate st df gt show ratio)) = true).
Proof.
  assert (Hcases :
    (exists f_uu f_ncpa,
       generate_graph df gt show ratio = Ok f_uu /\
       generate_ncpa_graph df gt show ratio = Ok f_ncpa /\
       on_generate st df gt show ratio
       = (mkSession (Some f_uu) (Some f_ncpa) true (length (rows df)), []))
    \/
    (exists m, on_generate st df gt show ratio = (st, [m]))).
  { unfold on_generate.
    destruct (filter (fun c => negb (has_column df c)) required_cols)
      as [|c cs] eqn:Hreq; [|right; eauto].
    apply required_present in Hreq as (_ & Hmin & Hmax).
    destruct (_ <- to_numeric df XMin;; _ <- to_numeric df XMax;;
              _ <- to_numeric df R2Log;; to_numeric df R2Lin)
      as [u|e]; [|right; eauto].
    destruct (generate_graph df gt show ratio) as [f|e] eqn:Hf;
      [|right; eauto].
    destruct (generate_ncpa_graph df gt show ratio) as [g|e] eqn:Hg.
    - left. exists f, g. now repeat split.
    - exfalso. apply (charts_raise_alike df gt show ratio e Hmin Hmax) in Hg.
      congruence. }
  split; [exact Hcases|].
  intros Hshown.
  destruct Hcases as [(f & g & _ & _ & ->)|(m & ->)]; [reflexivity|exact Hshown].
Qed.

(** ** Recovering the coefficients of a well-formed equation *)












(** ** Edge cases of the table *)

(** A table that has all its columns and no data row (a header alone) is
    not an error: both charts are generated, empty, and the handler
    records zero rows. *)
Theorem header_only_table (st : session) (df : DataFrame) (gt : graph_type)
    (show : bool) (ratio : float) :
  columns df = all_columns -> rows df = [] ->
  on_generate st df gt show ratio
  = (mkSession (Some []) (Some []) true 0, []).
Proof.
  intros Hc Hr. unfold on_generate, to_numeric, generate_graph,
    generate_ncpa_graph, enumerate.
  assert (Hh : forall c, has_column df c = true)
    by (intros c; unfold has_column; rewrite Hc; destruct c; reflexivity).
  replace (filter (fun c => negb (has_column df c)) required_cols)
    with (@nil column)
    by (unfold required_cols; cbn [filter]; now rewrite !Hh).
  rewrite !get_ok by apply Hh. rewrite Hr. reflexivity.
Qed.

Lemma header_only_table_witness :
  on_generate initial_session (mkDF all_columns []) BothModels true (Fin 1.5)
  = (mkSession (Some []) (Some []) true 0, []).
Proof.
  apply (@header_only_table initial_session (mkDF all_columns [])
           BothModels true (Fin 1.5)); reflexivity.
Defined.

Lemma flt_nan_r (x : float) : flt x NaN = false.
Proof. destruct x; reflexivity. Qed.

Lemma fgt_nan_r (x : float) : fgt x NaN = false.
Proof. reflexivity. Qed.

Lemma set_last_length (l : list float) (v : float) (m : nat) :
  length l = S m -> length (Np.set_last l v) = S m.
Proof.
  intros Hl. unfold Np.set_last.
  rewrite length_app, removelast_firstn_len, length_firstn, Hl. cbn. lia.
Qed.

Lemma linspace_length_any (start stop : float) (m : nat) :
  length (Np.linspace start stop (S m)) = S m.
Proof.
  unfold Np.linspace. apply set_last_length.
  destruct (feq _ _); rewrite !length_map, length_seq; reflexivity.
Qed.

(** A row whose maximum cell is missing ([nan] after the coercion) is not
    skipped from the acquisition chart: its observed series is emitted
    with 300 samples and it gets no high-side extrapolation.  In the cost
    chart it contributes nothing for the log model, and for the linear
    model the observed series alone. *)
Theorem missing_max_row (k : kind) (i : nat) (a b x_min : float)
    (all_x_min all_x_max : float) (show : bool) :
  (exists ys rest,
      uu_traces k i a b x_min NaN all_x_min all_x_max show
      = mkTrace i (i mod palette_size) k Observed
                (Np.linspace x_min NaN 300) ys :: rest /\
      length (Np.linspace x_min NaN 300) = 300%nat /\
      Forall (fun t => t_region t = ExtrapolatedLow) rest)
  /\
  ncpa_log_traces i a b x_min NaN all_x_max show = []
  /\
  (exists ys,
      ncpa_linear_traces i a b x_min NaN all_x_max show
      = [mkTrace i (i mod palette_size) Linear Observed
                 (Np.linspace x_min NaN 300) ys]).
Proof.
  split; [|split].
  - unfold uu_traces. rewrite fgt_nan_r.
    eexists _, _. split; [reflexivity|].
    split; [apply linspace_length_any|].
    destruct show; [|constructor]. rewrite app_nil_r.
    destruct (flt all_x_min x_min); repeat constructor.
  - unfold ncpa_log_traces. now rewrite flt_nan_r.
  - unfold ncpa_linear_traces, ncpa_high. rewrite fgt_nan_r.
    rewrite andb_false_r. eauto.
Qed.
